(** * Alanpay backend: the ledger and the voucher (QR code) engine

    A shallow embedding of the payment routes of [app/route/pay.py] and of
    the model methods they call ([app/models/user.py],
    [app/models/qrcode.py], [app/models/transaction.py]).

    Conventions of the embedding.
    - Money ([MoneyDecimal], a [Decimal] with two decimal places) is an
      integer number of cents: [Decimal('100.50')] is [10050].
    - A [datetime] is an integer number of microseconds; the instant at
      which a request is served is the argument [now] of its handler.
    - The three tables are lists of rows in insertion order.  Primary keys
      come from one sequence per table; a unit of work that fails gives its
      keys back, so that the store after a failed request is the store
      before it (PostgreSQL would leave a gap in the keys).
    - A handler is a computation over a [Session]: the committed database,
      the state of the open unit of work, and an oracle telling which of
      the coming [commit]s fail.  Exceptions are values of [Exc]. *)

From Stdlib Require Import ZArith List String Ascii Bool Lia DecimalString.
From Stdlib Require Import Permutation.
Import ListNotations.

Open Scope string_scope.
Open Scope list_scope.
Open Scope Z_scope.

Infix "+++" := String.append (at level 60, right associativity).

(* ------------------------------------------------------------------ *)
(** ** Rows of the three tables *)

(** [class TransactionType(str, Enum)] *)
Inductive TransactionType : Type :=
| TOPUP
| WITHDRAWAL
| TRANSFER_SENT
| TRANSFER_RECEIVED
| QR_PAYMENT.

(** [class QRType(Enum)] *)
Inductive QRType : Type :=
| REQUEST_PAYMENT   (* the owner requests money from others *)
| SEND_PAYMENT.     (* the owner sends money to others *)

Definition QRType_eqb (a b : QRType) : bool :=
  match a, b with
  | REQUEST_PAYMENT, REQUEST_PAYMENT => true
  | SEND_PAYMENT, SEND_PAYMENT => true
  | _, _ => false
  end.

Definition QRType_value (a : QRType) : string :=
  match a with
  | REQUEST_PAYMENT => "request_payment"
  | SEND_PAYMENT => "send_payment"
  end.

(** Table [user]. *)
Module user.
Record t : Type := Build {
  id : Z;
  username : string;
  password : string
}.
End user.

(** Table [transaction].  The primary key is the last field, so that a
    constructor applied to everything but [id] is the Python object before
    it is flushed: the database supplies the key. *)
Module transaction.
Record t : Type := Build {
  amount : Z;
  transaction_type : TransactionType;
  description : option string;
  timestamp : Z;
  user_id : Z;
  reference_user_id : option Z;
  qr_id : option Z;          (* nullable foreign key to qrcode.id *)
  id : Z
}.
End transaction.

(** Table [qrcode]. *)
Module qrcode.
Record t : Type := Build {
  qr_id : string;            (* the public token, a uuid4 *)
  qr_type : QRType;
  max_use_count : option Z;  (* nullable column *)
  amount : option Z;
  created_at : Z;
  expire : option Z;
  user_id : Z;
  id : Z
}.
End qrcode.

Definition User : Type := user.t.
Definition Transaction : Type := transaction.t.
Definition QRCode : Type := qrcode.t.

(* ------------------------------------------------------------------ *)
(** ** The database and the session *)

Record DB : Type := mkDB {
  user_table : list User;
  transaction_table : list Transaction;
  qrcode_table : list QRCode;
  transaction_seq : Z;         (* next value of transaction.id *)
  qrcode_seq : Z               (* next value of qrcode.id *)
}.

(** Exceptions that reach a handler's [except Exception] clause.  The four
    [...Exception] classes of [app/exceptions/payment.py] derive from
    [TransactionException], an [HTTPException] with status 400 whose
    [detail] is sent to the caller. *)
Inductive Exc : Type :=
| TransactionNotFoundException (detail : string)
| InsufficientBalanceException (detail : string)
| InvalidAmountException (detail : string)
| InvalidQRPaymentException (detail : string)
| UserNotFoundException (detail : string)   (* of [app/exceptions/user.py] *)
| AttributeError               (* attribute access on [None] *)
| TypeError                    (* [int >= None], aware against naive datetime *)
| DBAPIError                   (* a commit refused by the store *)
| IntegrityError               (* a UNIQUE constraint violated at the flush *)
| MissingGreenlet.             (* a lazy load of an expired attribute *)

(** [TransactionException.__init__]: status 400 and the detail.  Nothing is
    said here of the response to the other exceptions. *)
Definition http_response (e : Exc) : option (Z * string) :=
  match e with
  | TransactionNotFoundException d
  | InsufficientBalanceException d
  | InvalidAmountException d
  | InvalidQRPaymentException d => Some (400, d)
  | _ => None
  end.

Inductive Result (A : Type) : Type :=
| Return (a : A)
| Raise (e : Exc).
Arguments Return {A} a.
Arguments Raise {A} e.

Record Session : Type := mkSession {
  committed : DB;              (* what other sessions can see *)
  working : DB;                (* the open unit of work *)
  faults : list bool;          (* [true]: the next commit fails *)
  expired : bool;              (* the attached objects must be reloaded *)
  unique_violation : bool      (* the unit of work repeats a [qrcode.qr_id] *)
}.

Definition M (A : Type) : Type := Session -> Result A * Session.

Definition ret {A} (a : A) : M A := fun s => (Return a, s).

Definition bind {A B} (m : M A) (k : A -> M B) : M B :=
  fun s => match m s with
           | (Return a, s') => k a s'
           | (Raise e, s') => (Raise e, s')
           end.

Definition raise {A} (e : Exc) : M A := fun s => (Raise e, s).

(** [try: body  except Exception as e: handler e] *)
Definition try_except {A} (body : M A) (handler : Exc -> M A) : M A :=
  fun s => match body s with
           | (Return a, s') => (Return a, s')
           | (Raise e, s') => handler e s'
           end.

(** [if c: raise e] *)
Definition raise_if (c : bool) (e : Exc) : M unit :=
  if c then raise e else ret tt.

Notation "x <- m ;; k" := (bind m (fun x => k))
  (at level 61, m at next level, right associativity).
Notation "m ;; k" := (bind m (fun _ => k))
  (at level 61, right associativity).

(** A read of the store inside the unit of work. *)
Definition query {A} (f : DB -> A) : M A :=
  fun s => (Return (f (working s)), s).

Definition insert_transaction (db : DB) (row : Transaction) : DB :=
  mkDB (user_table db) (transaction_table db ++ [row]) (qrcode_table db)
       (transaction_seq db + 1) (qrcode_seq db).

Definition insert_qrcode (db : DB) (row : QRCode) : DB :=
  mkDB (user_table db) (transaction_table db) (qrcode_table db ++ [row])
       (transaction_seq db) (qrcode_seq db + 1).

Definition set_qrcode_table (db : DB) (rows : list QRCode) : DB :=
  mkDB (user_table db) (transaction_table db) rows
       (transaction_seq db) (qrcode_seq db).

(** [session.add(obj)].  The row is written to the unit of work at once and
    receives its key; no handler reads between [add] and [commit], so the
    deferred flush of the ORM cannot be told apart.  The object with its
    key is returned: it is what [session.refresh(obj)] gives back after the
    commit. *)
Definition session_add_transaction (obj : Z -> Transaction) : M Transaction :=
  fun s =>
    let row := obj (transaction_seq (working s)) in
    (Return row,
     mkSession (committed s) (insert_transaction (working s) row) (faults s)
               (expired s) (unique_violation s)).

(** Some row of [qrcode] carries the token: column [qr_id] is UNIQUE. *)
Definition token_taken (token : string) (db : DB) : bool :=
  existsb (fun q => String.eqb (qrcode.qr_id q) token) (qrcode_table db).

Definition session_add_qrcode (obj : Z -> QRCode) : M QRCode :=
  fun s =>
    let row := obj (qrcode_seq (working s)) in
    (Return row,
     mkSession (committed s) (insert_qrcode (working s) row) (faults s)
               (expired s)
               (if unique_violation s then true
                else token_taken (qrcode.qr_id row) (working s))).

(** [await session.execute(delete(QRCode).where(...))]: the rows of [qrcode]
    that satisfy the WHERE clause leave the unit of work; the result is
    their number ([rowcount]). *)
Definition session_execute_delete_qrcode (where_clause : DB -> QRCode -> bool)
  : M Z :=
  fun s =>
    let db := working s in
    let deleted := filter (where_clause db) (qrcode_table db) in
    let kept := filter (fun q => negb (where_clause db q)) (qrcode_table db) in
    (Return (Z.of_nat (List.length deleted)),
     mkSession (committed s) (set_qrcode_table db kept) (faults s)
               (expired s) (unique_violation s)).

(** [await session.commit()]: the whole unit of work becomes visible, or
    nothing does.  The store may refuse the commit before the flush reaches
    it (the oracle), and the flush fails when a new voucher repeats a token.
    A unit of work that fails has written no row; the keys its rows were
    to receive are given to the next rows, where PostgreSQL would leave a
    gap in the sequence.  Whether a successful commit expires the attached
    objects is a setting of the session factory
    ([app/utils/database.py]); the routes reload what they read after a
    commit, and the commit is taken not to expire. *)
Definition session_commit : M unit :=
  fun s =>
    match faults s with
    | true :: fs =>
        (Raise DBAPIError,
         mkSession (committed s) (working s) fs
                   (expired s) (unique_violation s))
    | fs =>
        if unique_violation s
        then (Raise IntegrityError,
              mkSession (committed s) (working s) (tl fs)
                        (expired s) (unique_violation s))
        else (Return tt,
              mkSession (working s) (working s) (tl fs)
                        (expired s) false)
    end.

(** [await session.rollback()]: the unit of work is dropped, and every
    object attached to the session is expired. *)
Definition session_rollback : M unit :=
  fun s =>
    (Return tt, mkSession (committed s) (committed s) (faults s) true false).

(** [logger.error(f"... {current_user.username} ...")].  [current_user] is
    attached to the session (the routes [session.refresh] it).  Reading an
    attribute of an expired object needs a load, which cannot run where
    the f-string is evaluated: [MissingGreenlet]. *)
Definition logger_error_username (current_user : User) : M unit :=
  fun s =>
    if expired s then (Raise MissingGreenlet, s) else (Return tt, s).

(** A request: a fresh session on the database; what remains afterwards is
    what was committed. *)
Definition run {A} (h : M A) (db : DB) (fs : list bool) : Result A * DB :=
  let (r, s) := h (mkSession db db fs false false) in (r, committed s).

(* ------------------------------------------------------------------ *)
(** ** SQL and Python helpers *)

(** [SUM(col)] over the selected rows: NULL when there is none. *)
Definition sql_sum (l : list Z) : option Z :=
  match l with
  | [] => None
  | _ => Some (fold_right Z.add 0 l)
  end.

(** [COALESCE(x, d)] *)
Definition sql_coalesce (x : option Z) (d : Z) : Z :=
  match x with
  | Some v => v
  | None => d
  end.

(** [col = v] on a nullable column, as a WHERE clause reads it: a NULL
    never satisfies the comparison. *)
Definition sql_eq_where (col : option Z) (v : Z) : bool :=
  match col with
  | Some c => c =? v
  | None => false
  end.

(** Three-valued [x NOT IN (values)]: false when [x] is among the values,
    unknown ([None]) when it is not and some value is NULL, true
    otherwise. *)
Definition sql_not_in (x : Z) (values : list (option Z)) : option bool :=
  if existsb (fun v => sql_eq_where v x) values then Some false
  else if existsb (fun v => match v with None => true | Some _ => false end) values
       then None
       else Some true.

(** A WHERE clause keeps a row only when its condition is true. *)
Definition sql_where (c : option bool) : bool :=
  match c with
  | Some true => true
  | _ => false
  end.

(** [x or d] on numbers: [x] unless it is zero. *)
Definition py_or (x d : Z) : Z := if x =? 0 then d else x.

(** [s or d] on strings: [s] unless it is empty. *)
Definition py_or_str (s d : string) : string :=
  match s with
  | EmptyString => d
  | _ => s
  end.

Definition str_of_N (n : N) : string := NilZero.string_of_uint (N.to_uint n).

(** [f"{x:.2f}"] for a [Decimal] with two decimal places, given in cents. *)
Definition format_money (cents : Z) : string :=
  let a := Z.abs cents in
  (if cents <? 0 then "-" else EmptyString)
    +++ str_of_N (Z.to_N (a / 100)) +++ "."
    +++ str_of_N (Z.to_N ((a mod 100) / 10))
    +++ str_of_N (Z.to_N (a mod 10)).

(* ------------------------------------------------------------------ *)
(** ** Model methods *)

Module User.

(** [User.total_balance]:
    [SELECT COALESCE(SUM(amount), 0.00) FROM transaction WHERE user_id = :user_id],
    then [result.scalar() or Decimal('0.00')]. *)
Definition total_balance (self : User) (db : DB) : Z :=
  let rows :=
    filter (fun r => transaction.user_id r =? user.id self)
           (transaction_table db) in
  let total := sql_coalesce (sql_sum (map transaction.amount rows)) 0 in
  py_or total 0.

(** [User.get_by_username]: [WHERE username = :name LIMIT 1]. *)
Definition get_by_username (name : string) (db : DB) : option User :=
  find (fun u => String.eqb (user.username u) name) (user_table db).

End User.

Module QRCode.

(** [QRCode.get_by_qr_id]: [WHERE qr_id = :qr_id LIMIT 1]. *)
Definition get_by_qr_id (qr_id : string) (db : DB) : option QRCode :=
  find (fun q => String.eqb (qrcode.qr_id q) qr_id) (qrcode_table db).

(** The relationship [qrcode.user], loaded with the row
    ([selectinload(cls.user)]): the user the foreign key points to. *)
Definition user (self : QRCode) (db : DB) : option User :=
  find (fun u => user.id u =? qrcode.user_id self) (user_table db).

(** The scalar subquery [(SELECT user_id FROM qrcode WHERE id = :id LIMIT 1)]:
    NULL when no row has that key. *)
Definition owner_subquery (id : Z) (db : DB) : option Z :=
  option_map qrcode.user_id
             (find (fun q => qrcode.id q =? id) (qrcode_table db)).

(** [QRCode.current_use_count]:
    [SELECT COUNT( * ) FROM transaction WHERE qr_id = :id AND user_id = (subquery)],
    then [cnt or 0]. *)
Definition current_use_count (self : QRCode) (db : DB) : Z :=
  let id := qrcode.id self in
  let owner := owner_subquery id db in
  let cnt :=
    Z.of_nat (List.length (filter
      (fun r => sql_eq_where (transaction.qr_id r) id
                && sql_eq_where owner (transaction.user_id r))
      (transaction_table db))) in
  py_or cnt 0.

(** [QRCode.is_exceed_limit]: [current_count >= self.max_use_count]. *)
Definition is_exceed_limit (self : QRCode) : M bool :=
  current_count <- query (current_use_count self) ;;
  match qrcode.max_use_count self with
  | Some k => ret (current_count >=? k)
  | None => raise TypeError
  end.

(** [QRCode.is_expired]:
    [self.expire is not None and datetime.now() > self.expire]. *)
Definition is_expired (now : Z) (self : QRCode) : bool :=
  match qrcode.expire self with
  | Some e => now >? e
  | None => false
  end.

(** [QRCode.can_be_used]: [not self.is_expired]. *)
Definition can_be_used (now : Z) (self : QRCode) : bool :=
  negb (is_expired now self).

(** The WHERE clause of the DELETE of [clean_unused_send_qrcodes]:
    [qr_type = SEND_PAYMENT AND id NOT IN (SELECT qr_id FROM transaction)]. *)
Definition clean_where (db : DB) (q : QRCode) : bool :=
  QRType_eqb (qrcode.qr_type q) SEND_PAYMENT
  && sql_where (sql_not_in (qrcode.id q)
                           (map transaction.qr_id (transaction_table db))).

(** [QRCode.clean_unused_send_qrcodes]: execute the DELETE, commit, and
    return the number of deleted rows. *)
Definition clean_unused_send_qrcodes : M Z :=
  rowcount <- session_execute_delete_qrcode clean_where ;;
  session_commit ;;
  ret rowcount.

End QRCode.

(* ------------------------------------------------------------------ *)
(** ** Request and response bodies ([app/models/payment.py]) *)

Module PaymentRequest.
Record t : Type := Build { amount : Z }.
End PaymentRequest.

Module TransferRequest.
Record t : Type := Build {
  amount : Z;
  recipient_username : string;
  description : string
}.
End TransferRequest.

(** A [datetime] of a request body: without offset it is parsed into a
    naive [datetime], with an offset into an aware one.  [datetime.now()]
    is naive, and Python refuses to compare the two kinds. *)
Inductive BodyDatetime : Type :=
| naive (instant : Z)
| aware (instant : Z).

Module PaymentCollectionRequest.
Record t : Type := Build {
  amount : Z;
  max_user_count : Z;
  expire : option BodyDatetime
}.
End PaymentCollectionRequest.

Module PaymentResponse.
Record t : Type := Build {
  message : string;
  amount : string;
  new_balance : string;
  transaction_id : option Z;
  timestamp : Z
}.
End PaymentResponse.

Module QRCodeResponse.
Record t : Type := Build {
  qr_id : string;
  qr_type : string;
  amount : option Z;
  expire : option Z          (* the instant that [isoformat] prints *)
}.
End QRCodeResponse.

(** The response of the two issuing routes: the text that is rendered as a
    QR image, and the three headers. *)
Module QRImageResponse.
Record t : Type := Build {
  rendered : string;
  header_qr_id : string;
  header_qr_url : string;
  header_qr_type : string
}.
End QRImageResponse.

(** [app/utils/config.py]: [qr_alive_delta] is
    [timedelta(seconds=MAX_QR_ALIVE_HOUR)]. *)
Record Settings : Type := mkSettings { MAX_QR_ALIVE_HOUR : Z }.

Definition qr_alive_delta (settings : Settings) : Z :=
  MAX_QR_ALIVE_HOUR settings * 1000000.

(** [timedelta(minutes=1)] *)
Definition one_minute : Z := 60 * 1000000.

(** [x.attr] where [x] may be [None]. *)
Definition attr_of {A} (x : option A) : M A :=
  match x with
  | Some a => ret a
  | None => raise AttributeError
  end.

(* ------------------------------------------------------------------ *)
(** ** The routes of [app/route/pay.py] *)

(** [POST /api/pay/topup].  The [except] clause rolls back, then logs, and
    does not raise again: it would return [None], were it not for the log
    line, which reads [current_user.username] after the rollback. *)
Definition topup (now : Z) (payment : PaymentRequest.t) (current_user : User)
  : M (option PaymentResponse.t) :=
  let amount := PaymentRequest.amount payment in
  try_except
    (raise_if (amount <=? 0)
       (InvalidAmountException "Top-up amount must be greater than zero") ;;
     transaction_record <- session_add_transaction
       (transaction.Build amount TOPUP
          (Some ("Top-up of $" +++ format_money amount))
          now (user.id current_user) None None) ;;
     session_commit ;;
     new_balance <- query (User.total_balance current_user) ;;
     ret (Some (PaymentResponse.Build
                  "Top-up processed successfully"
                  (format_money amount)
                  (format_money new_balance)
                  (Some (transaction.id transaction_record))
                  (transaction.timestamp transaction_record))))
    (fun e =>
       session_rollback ;;
       logger_error_username current_user ;;
       ret None).

(** [POST /api/pay/withdraw].  As in [topup], the [except] clause rolls
    back before it logs. *)
Definition withdraw (now : Z) (payment : PaymentRequest.t) (current_user : User)
  : M PaymentResponse.t :=
  let amount := PaymentRequest.amount payment in
  try_except
    (raise_if (amount <=? 0)
       (InvalidAmountException "Withdrawal amount must be greater than zero") ;;
     total_balance <- query (User.total_balance current_user) ;;
     raise_if (total_balance <=? 0)
       (InsufficientBalanceException "No balance available for withdrawal") ;;
     raise_if (amount >? total_balance)
       (InsufficientBalanceException
          ("Withdrawal amount $" +++ format_money amount
             +++ " exceeds available balance $" +++ format_money total_balance)) ;;
     transaction_record <- session_add_transaction
       (transaction.Build (- amount) WITHDRAWAL
          (Some ("Withdrawal of $" +++ format_money amount))
          now (user.id current_user) None None) ;;
     session_commit ;;
     new_balance <- query (User.total_balance current_user) ;;
     ret (PaymentResponse.Build
            "Withdrawal processed successfully"
            (format_money amount)
            (format_money new_balance)
            (Some (transaction.id transaction_record))
            (transaction.timestamp transaction_record)))
    (fun e =>
       session_rollback ;;
       logger_error_username current_user ;;
       raise e).

(** [POST /api/pay/transfer].  The [except] clause logs, rolls back and
    raises again, as those of the voucher routes do. *)
Definition transfer (now : Z) (payment : TransferRequest.t) (current_user : User)
  : M PaymentResponse.t :=
  let amount := TransferRequest.amount payment in
  try_except
    (let recipient_username := TransferRequest.recipient_username payment in
     let description := TransferRequest.description payment in
     raise_if (amount <=? 0)
       (InvalidAmountException "Transfer amount must be greater than zero") ;;
     found <- query (User.get_by_username recipient_username) ;;
     match found with
     | None =>
         raise (UserNotFoundException
                  ("User '" +++ recipient_username +++ "' not found"))
     | Some recipient =>
         raise_if (user.id recipient =? user.id current_user)
           (InvalidAmountException "Cannot transfer to yourself") ;;
         sender_balance <- query (User.total_balance current_user) ;;
         raise_if (amount >? sender_balance)
           (InsufficientBalanceException
              ("Transfer amount $" +++ format_money amount
                 +++ " exceeds available balance $"
                 +++ format_money sender_balance)) ;;
         sender_transaction <- session_add_transaction
           (transaction.Build (- amount) TRANSFER_SENT
              (Some (py_or_str description
                       ("Transfer to " +++ recipient_username)))
              now (user.id current_user) (Some (user.id recipient)) None) ;;
         recipient_transaction <- session_add_transaction
           (transaction.Build amount TRANSFER_RECEIVED
              (Some (py_or_str description
                       ("Transfer from " +++ user.username current_user)))
              now (user.id recipient) (Some (user.id current_user)) None) ;;
         session_commit ;;
         new_balance <- query (User.total_balance current_user) ;;
         ret (PaymentResponse.Build
                ("Transfer to " +++ recipient_username
                   +++ " processed successfully")
                (format_money amount)
                (format_money new_balance)
                (Some (transaction.id sender_transaction))
                (transaction.timestamp sender_transaction))
     end)
    (fun e =>
       logger_error_username current_user ;;
       session_rollback ;;
       raise e).

(** [POST /api/pay/qrcode/request] *)
Definition qrcode_request (settings : Settings) (now : Z) (uuid4 : string)
    (origin : option string)
    (collect : PaymentCollectionRequest.t) (current_user : User)
  : M QRImageResponse.t :=
  try_except
    (let t := now in
     expire_at <-
       match PaymentCollectionRequest.expire collect with
       | Some (aware _) => raise TypeError
       | Some (naive e) => ret (Z.min e (t + qr_alive_delta settings))
       | None =>
           ret (Z.min (t + qr_alive_delta settings)
                      (t + qr_alive_delta settings))
       end ;;
     qrcode <- session_add_qrcode
       (qrcode.Build uuid4 REQUEST_PAYMENT
          (Some (PaymentCollectionRequest.max_user_count collect))
          (Some (PaymentCollectionRequest.amount collect))
          now (Some expire_at) (user.id current_user)) ;;
     session_commit ;;
     let url :=
       match origin with
       | None | Some EmptyString => qrcode.qr_id qrcode
       | Some o => o +++ "/pay/scan/request/" +++ qrcode.qr_id qrcode
       end in
     ret (QRImageResponse.Build url (qrcode.qr_id qrcode) url
            (QRType_value (qrcode.qr_type qrcode))))
    (fun e =>
       logger_error_username current_user ;;
       session_rollback ;;
       raise e).

(** [POST /api/pay/qrcode/send] *)
Definition qrcode_send (now : Z) (uuid4 : string) (origin : option string)
    (current_user : User)
  : M QRImageResponse.t :=
  try_except
    (let qrcode :=
       qrcode.Build uuid4 SEND_PAYMENT (Some 1) None
                    now (Some (now + one_minute)) (user.id current_user) in
     QRCode.clean_unused_send_qrcodes ;;
     qrcode <- session_add_qrcode qrcode ;;
     session_commit ;;
     let url :=
       match origin with
       | None | Some EmptyString => qrcode.qr_id qrcode
       | Some o => o +++ "/pay/scan/send/" +++ qrcode.qr_id qrcode
       end in
     ret (QRImageResponse.Build url (qrcode.qr_id qrcode) url
            (QRType_value (qrcode.qr_type qrcode))))
    (fun e =>
       logger_error_username current_user ;;
       session_rollback ;;
       raise e).

(** [POST /api/pay/qrcode/scan/{qr_id}].  [QRType] has two members, so the
    final [else] of the source (the code "Invalid QR code type") has no
    input. *)
Definition scan_qrcode (now : Z) (qr_id : string) (current_user : User)
    (amount : option Z)
  : M PaymentResponse.t :=
  try_except
    (found <- query (QRCode.get_by_qr_id qr_id) ;;
     match found with
     | None => raise (TransactionNotFoundException "QR code not found")
     | Some qrcode =>
         raise_if (QRCode.is_expired now qrcode)
           (TransactionNotFoundException "QR code has expired or is invalid") ;;
         exceeded <- QRCode.is_exceed_limit qrcode ;;
         raise_if exceeded
           (TransactionNotFoundException
              "QR code has reached its maximum usage limit") ;;
         match qrcode.qr_type qrcode with
         | REQUEST_PAYMENT =>
             (* the QR owner receives money *)
             match qrcode.amount qrcode with
             | None => raise (InvalidAmountException "QR code has invalid amount")
             | Some payment_amount =>
                 raise_if (payment_amount <=? 0)
                   (InvalidAmountException "QR code has invalid amount") ;;
                 let sender := current_user in
                 owner <- query (QRCode.user qrcode) ;;
                 let sender_username := user.username sender in
                 recipient <- attr_of owner ;;
                 let recipient_username := user.username recipient in
                 raise_if (user.id recipient =? user.id sender)
                   (InvalidAmountException "Cannot transfer to yourself") ;;
                 sender_balance <- query (User.total_balance sender) ;;
                 raise_if (payment_amount >? sender_balance)
                   (InsufficientBalanceException
                      ("Transfer amount $" +++ format_money payment_amount
                         +++ " exceeds available balance $"
                         +++ format_money sender_balance)) ;;
                 sender_transaction <- session_add_transaction
                   (transaction.Build (- payment_amount) QR_PAYMENT
                      (Some ("Payment via QR code to " +++ recipient_username))
                      now (user.id sender) (Some (user.id recipient))
                      (Some (qrcode.id qrcode))) ;;
                 recipient_transaction <- session_add_transaction
                   (transaction.Build payment_amount QR_PAYMENT
                      (Some ("Payment via QR code from " +++ sender_username))
                      now (user.id recipient) (Some (user.id sender))
                      (Some (qrcode.id qrcode))) ;;
                 session_commit ;;
                 new_balance <- query (User.total_balance sender) ;;
                 ret (PaymentResponse.Build
                        ("QR Payment to " +++ recipient_username
                           +++ " processed successfully")
                        (format_money payment_amount)
                        (format_money new_balance)
                        (Some (transaction.id sender_transaction))
                        (transaction.timestamp sender_transaction))
             end
         | SEND_PAYMENT =>
             (* the QR owner sends money *)
             match amount with
             | None =>
                 raise (InvalidAmountException
                          "Amount must be specified and greater than zero")
             | Some payment_amount =>
                 raise_if (payment_amount <=? 0)
                   (InvalidAmountException
                      "Amount must be specified and greater than zero") ;;
                 owner <- query (QRCode.user qrcode) ;;
                 let recipient := current_user in
                 sender <- attr_of owner ;;
                 let sender_username := user.username sender in
                 let recipient_username := user.username recipient in
                 raise_if (user.id recipient =? user.id sender)
                   (InvalidAmountException "Cannot transfer to yourself") ;;
                 sender_balance <- query (User.total_balance sender) ;;
                 raise_if (payment_amount >? sender_balance)
                   (InsufficientBalanceException
                      ("Transfer amount $" +++ format_money payment_amount
                         +++ " exceeds available balance $"
                         +++ format_money sender_balance)) ;;
                 sender_transaction <- session_add_transaction
                   (transaction.Build (- payment_amount) QR_PAYMENT
                      (Some ("Payment via QR code to " +++ recipient_username))
                      now (user.id sender) (Some (user.id recipient))
                      (Some (qrcode.id qrcode))) ;;
                 recipient_transaction <- session_add_transaction
                   (transaction.Build payment_amount QR_PAYMENT
                      (Some ("Payment via QR code from " +++ sender_username))
                      now (user.id recipient) (Some (user.id sender))
                      (Some (qrcode.id qrcode))) ;;
                 session_commit ;;
                 new_balance <- query (User.total_balance recipient) ;;
                 ret (PaymentResponse.Build
                        ("QR Payment from " +++ sender_username
                           +++ " processed successfully")
                        (format_money payment_amount)
                        (format_money new_balance)
                        (Some (transaction.id recipient_transaction))
                        (transaction.timestamp recipient_transaction))
             end
         end
     end)
    (fun e =>
       logger_error_username current_user ;;
       session_rollback ;;
       raise e).

(** [GET /api/pay/qrcode/uuid/{qr_id}].  Its [except] clause logs and raises
    again; the route writes nothing. *)
Definition get_qrcode_by_uuid (now : Z) (qr_id : string) (current_user : User)
  : M QRCodeResponse.t :=
  try_except
    (found <- query (QRCode.get_by_qr_id qr_id) ;;
     match found with
     | None => raise (TransactionNotFoundException "QR code not found")
     | Some qrcode =>
         raise_if (QRType_eqb (qrcode.qr_type qrcode) SEND_PAYMENT
                   && negb (QRCode.can_be_used now qrcode))
           (TransactionNotFoundException "QR code has expired or is invalid") ;;
         ret (QRCodeResponse.Build
                (qrcode.qr_id qrcode)
                (QRType_value (qrcode.qr_type qrcode))
                (qrcode.amount qrcode)
                (qrcode.expire qrcode))
     end)
    (fun e => logger_error_username current_user ;; raise e).

(* ------------------------------------------------------------------ *)
(** ** A small database to run the routes on *)

Definition alice : User := user.Build 1 "alice" "x".
Definition bob : User := user.Build 2 "bob" "y".
Definition carol : User := user.Build 3 "carol" "z".

Definition db0 : DB := mkDB [alice; bob; carol] [] [] 1 1.

(** The database after a request, whatever it answered. *)
Definition after {A} (h : M A) (db : DB) : DB := snd (run h db []).

(** Alice tops up 100.00. *)
Definition db1 : DB := after (topup 10 (PaymentRequest.Build 10000) alice) db0.

(** On the empty ledger, Bob issues a send voucher. *)
Definition db_bob_send : DB := after (qrcode_send 100 "token-bob" None bob) db0.

(** Bob's send voucher. *)
Definition bob_voucher : QRCode :=
  qrcode.Build "token-bob" SEND_PAYMENT (Some 1) None
               100 (Some (100 + one_minute)) 2 1.

(** After Alice's top-up, Bob issues a request voucher of 20.00 for one use,
    and Alice pays it. *)
Definition db_request : DB :=
  after (qrcode_request (mkSettings 168) 20 "token-req" None
           (PaymentCollectionRequest.Build 2000 1 None) bob) db1.

Definition db_request_used : DB :=
  after (scan_qrcode 30 "token-req" alice None) db_request.

Definition request_voucher : QRCode :=
  qrcode.Build "token-req" REQUEST_PAYMENT (Some 1) (Some 2000)
               20 (Some 168000020) 2 1.

(** After her top-up, Alice issues a send voucher, and Bob draws 30.00
    with it. *)
Definition db_send : DB := after (qrcode_send 100 "token-send" None alice) db1.

Definition db_send_used : DB :=
  after (scan_qrcode 101 "token-send" bob (Some 3000)) db_send.

Definition send_voucher : QRCode :=
  qrcode.Build "token-send" SEND_PAYMENT (Some 1) None
               100 (Some (100 + one_minute)) 1 1.

(* ------------------------------------------------------------------ *)
(** ** What the specification calls things *)

(** The balance of the specification: the sum of the amounts of the ledger
    entries of one account. *)
Definition ledger_sum (account_id : Z) (entries : list Transaction) : Z :=
  fold_right Z.add 0
    (map transaction.amount
         (filter (fun r => transaction.user_id r =? account_id) entries)).

(** The double-entry pair of a payment of [a] from [payer] to [payee]:
    the ledger grows by exactly a debit and a credit. *)
Definition double_entry (a payer payee : Z) (before after : DB) : Prop :=
  exists debit credit,
    transaction_table after = transaction_table before ++ [debit; credit]
    /\ transaction.user_id debit = payer
    /\ transaction.amount debit = - a
    /\ transaction.user_id credit = payee
    /\ transaction.amount credit = a.

(** The exception the routes raise for a payment to oneself.  The source has
    no class of its own for it. *)
Definition SelfTransferDisallowed : Exc :=
  InvalidAmountException "Cannot transfer to yourself".

(** Some ledger entry points to the voucher. *)
Definition referenced (q : QRCode) (db : DB) : bool :=
  existsb (fun r => sql_eq_where (transaction.qr_id r) (qrcode.id q))
          (transaction_table db).

(** Some ledger entry has no voucher reference. *)
Definition has_null_qr_id (db : DB) : Prop :=
  exists r, In r (transaction_table db) /\ transaction.qr_id r = None.

(** The primary key of table [qrcode]. *)
Definition qrcode_pk (db : DB) : Prop :=
  NoDup (map qrcode.id (qrcode_table db)).

(** Requests, to speak of sequences of operations. *)
Inductive Request : Type :=
| TopUp (now : Z) (payment : PaymentRequest.t) (current_user : User)
| Withdraw (now : Z) (payment : PaymentRequest.t) (current_user : User)
| Transfer (now : Z) (payment : TransferRequest.t) (current_user : User)
| IssueRequest (settings : Settings) (now : Z) (uuid4 : string)
    (origin : option string) (collect : PaymentCollectionRequest.t)
    (current_user : User)
| IssueSend (now : Z) (uuid4 : string) (origin : option string)
    (current_user : User)
| Scan (now : Z) (qr_id : string) (current_user : User) (amount : option Z)
| View (now : Z) (qr_id : string) (current_user : User).

(** One request served on a database, with the commit faults it meets. *)
Definition serve (rq : Request * list bool) (db : DB) : DB :=
  let (r, fs) := rq in
  match r with
  | TopUp now p u => snd (run (topup now p u) db fs)
  | Withdraw now p u => snd (run (withdraw now p u) db fs)
  | Transfer now p u => snd (run (transfer now p u) db fs)
  | IssueRequest st now uuid4 origin c u =>
      snd (run (qrcode_request st now uuid4 origin c u) db fs)
  | IssueSend now uuid4 origin u =>
      snd (run (qrcode_send now uuid4 origin u) db fs)
  | Scan now qr_id u amount => snd (run (scan_qrcode now qr_id u amount) db fs)
  | View now qr_id u => snd (run (get_qrcode_by_uuid now qr_id u) db fs)
  end.

(** Requests served one after the other, the first of the list first. *)
Fixpoint serve_all (rqs : list (Request * list bool)) (db : DB) : DB :=
  match rqs with
  | [] => db
  | rq :: rest => serve_all rest (serve rq db)
  end.

(** The two rows of a payment of [a] from [payer] to [payee] made through
    [voucher] (or through none). *)
Definition payment_rows (a payer payee : Z) (voucher : option Z)
    (debit credit : Transaction) : Prop :=
  transaction.user_id debit = payer
  /\ transaction.amount debit = - a
  /\ transaction.qr_id debit = voucher
  /\ transaction.user_id credit = payee
  /\ transaction.amount credit = a
  /\ transaction.qr_id credit = voucher.

(** The store after the DELETE of [clean_unused_send_qrcodes]. *)
Definition pruned (db : DB) : DB :=
  set_qrcode_table db
    (filter (fun q => negb (QRCode.clean_where db q)) (qrcode_table db)).

(** The keys of table [qrcode] are distinct and below the next value of the
    sequence. *)
Definition qrcode_wf (db : DB) : Prop :=
  qrcode_pk db
  /\ Forall (fun q => qrcode.id q < qrcode_seq db) (qrcode_table db).

(* ------------------------------------------------------------------ *)
(** ** The reading routes and the queries behind them *)

Definition TransactionType_value (t : TransactionType) : string :=
  match t with
  | TOPUP => "topup"
  | WITHDRAWAL => "withdrawal"
  | TRANSFER_SENT => "transfer_sent"
  | TRANSFER_RECEIVED => "transfer_received"
  | QR_PAYMENT => "qr_payment"
  end.

(** [ORDER BY timestamp DESC], one row at a time: the row goes in front of
    the first row that is strictly older.  SQL leaves the order of rows
    with equal timestamps to the database. *)
Fixpoint insert_by_timestamp (r : Transaction) (rows : list Transaction)
  : list Transaction :=
  match rows with
  | [] => [r]
  | x :: rest =>
      if transaction.timestamp x <? transaction.timestamp r
      then r :: x :: rest
      else x :: insert_by_timestamp r rest
  end.

Fixpoint order_by_timestamp_desc (rows : list Transaction) : list Transaction :=
  match rows with
  | [] => []
  | r :: rest => insert_by_timestamp r (order_by_timestamp_desc rest)
  end.

(** The WHERE clause shared by the history queries:
    [user_id = :user_id AND timestamp >= :from_date]. *)
Definition history_where (user_id from_date : Z) (r : Transaction) : bool :=
  (transaction.user_id r =? user_id)
  && (transaction.timestamp r >=? from_date).

(** [User.get_transactions_by_date] *)
Definition User_get_transactions_by_date (user_id from_date : Z) (db : DB)
  : list Transaction :=
  order_by_timestamp_desc
    (filter (history_where user_id from_date) (transaction_table db)).

(** [User.count_transactions_by_date]: [SELECT COUNT( * ) ...], then
    [count or 0]. *)
Definition User_count_transactions_by_date (user_id from_date : Z) (db : DB)
  : Z :=
  let count :=
    Z.of_nat (List.length (filter (history_where user_id from_date)
                                  (transaction_table db))) in
  py_or count 0.

(** [User.get_all_users] *)
Definition User_get_all_users (db : DB) : list User := user_table db.

Module BalanceHistoryItem.
Record t : Type := Build {
  id : option Z;
  type : string;
  amount : string;
  timestamp : Z;               (* the instant that [isoformat] prints *)
  transaction_type : string
}.
End BalanceHistoryItem.

Module BalanceHistoryResponse.
Record t : Type := Build {
  username : string;
  total_balance : string;
  history_months : Z;
  balances : list BalanceHistoryItem.t;
  total_transactions : Z
}.
End BalanceHistoryResponse.

(** [timedelta(days=30 * history_months)] *)
Definition history_window (history_months : Z) : Z :=
  30 * history_months * 86400 * 1000000.

(** The item of the history built from one row. *)
Definition history_item (r : Transaction) : BalanceHistoryItem.t :=
  BalanceHistoryItem.Build
    (Some (transaction.id r))
    (TransactionType_value (transaction.transaction_type r))
    (format_money (transaction.amount r))
    (transaction.timestamp r)
    (TransactionType_value (transaction.transaction_type r)).

(** [GET /api/pay/history].  [history_months] is between 1 and 24 when the
    route is reached ([Query(6, ge=1, le=24)]). *)
Definition get_history (now : Z) (current_user : User) (history_months : Z)
  : M BalanceHistoryResponse.t :=
  try_except
    (let cutoff_date := now - history_window history_months in
     filtered_transactions <-
       query (User_get_transactions_by_date (user.id current_user) cutoff_date) ;;
     let total_count := Z.of_nat (List.length filtered_transactions) in
     let transaction_items := map history_item filtered_transactions in
     total_balance <- query (User.total_balance current_user) ;;
     ret (BalanceHistoryResponse.Build
            (user.username current_user)
            (format_money total_balance)
            history_months
            transaction_items
            total_count))
    (fun e => logger_error_username current_user ;; raise e).

Module TransactionDetails.
Record t : Type := Build {
  id : Z;
  amount : string;
  transaction_type : string;
  description : option string;
  timestamp : Z;               (* the instant that [isoformat] prints *)
  reference_user_name : option string
}.
End TransactionDetails.

(** What [get_transaction_details] answers.  [UnauthorizedException] is a
    class of [app/exceptions/user.py]; the route gives it its detail. *)
Inductive DetailsOutcome : Type :=
| DetailsReturn (d : TransactionDetails.t)
| DetailsRaise (e : Exc)
| DetailsUnauthorized (detail : string).

(** [session.get(Transaction, transaction_id)] *)
Definition session_get_transaction (transaction_id : Z) (db : DB)
  : option Transaction :=
  find (fun r => transaction.id r =? transaction_id) (transaction_table db).

(** [session.get(User, user_id)] *)
Definition session_get_user (user_id : Z) (db : DB) : option User :=
  find (fun u => user.id u =? user_id) (user_table db).

(** [GET /api/pay/transaction/{transaction_id}].  The route reads only; its
    [except] clause logs and raises again.  [TransactionNotFoundException]
    is raised as a class, hence with its default detail; a reference user
    id of 0 is falsy and gives no name. *)
Definition get_transaction_details (transaction_id : Z) (current_user : User)
    (db : DB) : DetailsOutcome :=
  match session_get_transaction transaction_id db with
  | None => DetailsRaise (TransactionNotFoundException "Transaction not found")
  | Some tr =>
      if negb (transaction.user_id tr =? user.id current_user)
      then DetailsUnauthorized "Access denied to this transaction"
      else
        let reference_user_name :=
          match transaction.reference_user_id tr with
          | None => None
          | Some rid =>
              if rid =? 0 then None
              else option_map user.username (session_get_user rid db)
          end in
        DetailsReturn
          (TransactionDetails.Build
             (transaction.id tr)
             (format_money (transaction.amount tr))
             (TransactionType_value (transaction.transaction_type tr))
             (transaction.description tr)
             (transaction.timestamp tr)
             reference_user_name)
  end.

(** The sum of all amounts of the ledger: the money the accounts hold
    together. *)
Definition ledger_total (db : DB) : Z :=
  fold_right Z.add 0 (map transaction.amount (transaction_table db)).

(** The keys of table [transaction] are distinct and below the next value
    of the sequence. *)
Definition transaction_wf (db : DB) : Prop :=
  NoDup (map transaction.id (transaction_table db))
  /\ Forall (fun r => transaction.id r < transaction_seq db)
            (transaction_table db).

(** Every voucher reference of the ledger is a key the sequence of [qrcode]
    has already given out. *)
Definition references_issued (db : DB) : Prop :=
  Forall (fun r => forall i, transaction.qr_id r = Some i -> i < qrcode_seq db)
         (transaction_table db).

(** No voucher has been used more often than its limit allows. *)
Definition uses_bounded (db : DB) : Prop :=
  Forall (fun q => exists k, qrcode.max_use_count q = Some k
                             /\ QRCode.current_use_count q db <= Z.max 0 k)
         (qrcode_table db).

(** The invariant of the voucher store. *)
Definition voucher_invariant (db : DB) : Prop :=
  qrcode_wf db /\ references_issued db /\ uses_bounded db.

(** The rows sorted from the newest to the oldest. *)
Fixpoint newest_first (rows : list Transaction) : Prop :=
  match rows with
  | [] => True
  | r :: rest =>
      Forall (fun x => transaction.timestamp x <= transaction.timestamp r) rest
      /\ newest_first rest
  end.

(** The coming commit is accepted by the store. *)
Definition commit_accepted (fs : list bool) : bool :=
  match fs with
  | true :: _ => false
  | _ => true
  end.

(** Requests that pay from one account to another, or do not touch the
    ledger: all but top-ups and withdrawals. *)
Definition inside_the_system (r : Request) : bool :=
  match r with
  | TopUp _ _ _ | Withdraw _ _ _ => false
  | _ => true
  end.

(** The conditions under which [scan_qrcode] lets [u] redeem the voucher of
    token [qr_id] for the amount [a], paid by [payer] to [payee]. *)
Definition redeemable (now : Z) (qr_id : string) (u : User) (amt : option Z)
    (db : DB) (q : QRCode) (a : Z) (payer payee : User) : Prop :=
  QRCode.get_by_qr_id qr_id db = Some q
  /\ QRCode.is_expired now q = false
  /\ (exists k, qrcode.max_use_count q = Some k
                /\ QRCode.current_use_count q db < k)
  /\ 0 < a
  /\ (exists owner,
         QRCode.user q db = Some owner
         /\ user.id owner <> user.id u
         /\ match qrcode.qr_type q with
            | REQUEST_PAYMENT =>
                qrcode.amount q = Some a /\ payer = u /\ payee = owner
            | SEND_PAYMENT =>
                amt = Some a /\ payer = owner /\ payee = u
            end)
  /\ a <= User.total_balance payer db.

(** The count behind [current_use_count] once the owner of the voucher is
    known: the rows of the ledger that carry the key of the voucher and
    belong to its owner. *)
Definition owner_uses (q : QRCode) (rows : list Transaction) : Z :=
  Z.of_nat (List.length (filter
    (fun r => sql_eq_where (transaction.qr_id r) (qrcode.id q)
              && (qrcode.user_id q =? transaction.user_id r))
    rows)).

(** The changes a route makes to the committed store.  Every request is at
    most two of them: issuing a send voucher prunes and then inserts. *)
Inductive store_step : DB -> DB -> Prop :=
| step_none db :
    store_step db db
| step_entry db row :
    transaction.id row = transaction_seq db ->
    transaction.qr_id row = None ->
    store_step db (insert_transaction db row)
| step_transfer db a payer payee debit credit :
    payment_rows a payer payee None debit credit ->
    transaction.id debit = transaction_seq db ->
    transaction.id credit = transaction_seq db + 1 ->
    store_step db (insert_transaction (insert_transaction db debit) credit)
| step_redeem db q k a payer payee debit credit :
    In q (qrcode_table db) ->
    qrcode.max_use_count q = Some k ->
    QRCode.current_use_count q db < k ->
    payment_rows a payer payee (Some (qrcode.id q)) debit credit ->
    (payer = qrcode.user_id q /\ payee <> qrcode.user_id q)
    \/ (payee = qrcode.user_id q /\ payer <> qrcode.user_id q) ->
    transaction.id debit = transaction_seq db ->
    transaction.id credit = transaction_seq db + 1 ->
    store_step db (insert_transaction (insert_transaction db debit) credit)
| step_issue db row k :
    qrcode.id row = qrcode_seq db ->
    qrcode.max_use_count row = Some k ->
    store_step db (insert_qrcode db row)
| step_prune db :
    store_step db (pruned db).

(** Alice tops up at the instant 0 and again forty days later. *)
Definition forty_days : Z := 40 * 86400 * 1000000.

Definition db_two_topups : DB :=
  after (topup forty_days (PaymentRequest.Build 2500) alice)
        (after (topup 0 (PaymentRequest.Build 10000) alice) db0).

(* ------------------------------------------------------------------ *)
(** ** Balances *)

Ltac msimpl :=
  cbv beta iota zeta delta
    [run after try_except bind ret raise raise_if query attr_of
     session_add_transaction session_add_qrcode session_commit
     session_execute_delete_qrcode logger_error_username
     expired unique_violation tl
     session_rollback QRCode.is_exceed_limit QRCode.clean_unused_send_qrcodes
     committed working faults fst snd].

Ltac bools :=
  repeat match goal with
  | H : (_ <=? _) = false |- _ => apply Z.leb_gt in H
  | H : (_ <=? _) = true |- _ => apply Z.leb_le in H
  | H : (_ >? _) = false |- _ => rewrite Z.gtb_ltb in H; apply Z.ltb_ge in H
  | H : (_ >? _) = true |- _ => rewrite Z.gtb_ltb in H; apply Z.ltb_lt in H
  | H : (_ >=? _) = false |- _ => rewrite Z.geb_leb in H; apply Z.leb_gt in H
  | H : (_ >=? _) = true |- _ => rewrite Z.geb_leb in H; apply Z.leb_le in H
  | H : (_ =? _) = false |- _ => apply Z.eqb_neq in H
  | H : (_ =? _) = true |- _ => apply Z.eqb_eq in H
  end.

Ltac exists_rows r :=
  eexists _, r, _, _; (split; [reflexivity|]);
  unfold payment_rows; cbn; auto 10.

Lemma py_or_zero (x : Z) : py_or x 0 = x.
Proof.
  unfold py_or. destruct (x =? 0) eqn:E; [apply Z.eqb_eq in E; lia | reflexivity].
Qed.

Lemma sql_sum_coalesce (l : list Z) :
  sql_coalesce (sql_sum l) 0 = fold_right Z.add 0 l.
Proof. destruct l; reflexivity. Qed.

Lemma total_balance_ledger_sum (u : User) (db : DB) :
  User.total_balance u db = ledger_sum (user.id u) (transaction_table db).
Proof.
  unfold User.total_balance, ledger_sum.
  now rewrite py_or_zero, sql_sum_coalesce.
Qed.

Lemma sum_app (xs ys : list Z) :
  fold_right Z.add 0 (xs ++ ys) = fold_right Z.add 0 xs + fold_right Z.add 0 ys.
Proof.
  induction xs as [|x xs IH]; cbn [app fold_right]; lia.
Qed.

Lemma ledger_sum_app (i : Z) (l1 l2 : list Transaction) :
  ledger_sum i (l1 ++ l2) = ledger_sum i l1 + ledger_sum i l2.
Proof.
  unfold ledger_sum. now rewrite filter_app, map_app, sum_app.
Qed.

Lemma ledger_sum_one (i : Z) (r : Transaction) :
  ledger_sum i [r]
  = if transaction.user_id r =? i then transaction.amount r else 0.
Proof.
  unfold ledger_sum. simpl. destruct (_ =? _); simpl; lia.
Qed.

Lemma total_balance_insert (u : User) (db : DB) (r : Transaction) :
  User.total_balance u (insert_transaction db r)
  = User.total_balance u db
    + (if transaction.user_id r =? user.id u then transaction.amount r else 0).
Proof.
  rewrite !total_balance_ledger_sum. unfold insert_transaction. simpl.
  now rewrite ledger_sum_app, ledger_sum_one.
Qed.

Lemma total_balance_same_ledger (u : User) (db db' : DB) :
  transaction_table db' = transaction_table db ->
  User.total_balance u db' = User.total_balance u db.
Proof.
  intros H. rewrite !total_balance_ledger_sum. now rewrite H.
Qed.

Lemma format_money_zero : format_money 0 = "0.00".
Proof. reflexivity. Qed.

(** C2.  The balance query returns, in every state of the store, the sum of
    the amounts of the ledger entries of the account, and it returns zero,
    printed "0.00", for an account without entries. *)
Theorem balance_is_sum_of_entries (u : User) (db : DB) :
  User.total_balance u db = ledger_sum (user.id u) (transaction_table db)
  /\ (filter (fun r => transaction.user_id r =? user.id u)
             (transaction_table db) = [] ->
      User.total_balance u db = 0
      /\ format_money (User.total_balance u db) = "0.00").
Proof.
  split; [apply total_balance_ledger_sum|].
  intros H. rewrite total_balance_ledger_sum. unfold ledger_sum.
  rewrite H. simpl. split; reflexivity.
Qed.

Lemma balance_is_sum_of_entries_witness :
  User.total_balance bob db1 = ledger_sum 2 (transaction_table db1)
  /\ User.total_balance bob db1 = 0
  /\ format_money (User.total_balance bob db1) = "0.00".
Proof.
  destruct (balance_is_sum_of_entries bob db1) as [H1 H2].
  split; [exact H1 | apply H2; reflexivity].
Defined.

(* ------------------------------------------------------------------ *)
(** ** What a request leaves behind *)

(** The committed store changes at a commit only: what is added to the unit
    of work is not visible before, a rollback discards it, and a commit
    publishes all of it or nothing. *)
Lemma added_rows_are_not_visible obj s :
  committed (snd (session_add_transaction obj s)) = committed s.
Proof. reflexivity. Qed.

Lemma rollback_discards_the_unit_of_work s :
  committed (snd (session_rollback s)) = committed s
  /\ working (snd (session_rollback s)) = committed s.
Proof. split; reflexivity. Qed.

Lemma commit_all_or_nothing s :
  (fst (session_commit s) = Return tt
   /\ committed (snd (session_commit s)) = working s)
  \/ (exists e, fst (session_commit s) = Raise e
                /\ committed (snd (session_commit s)) = committed s).
Proof.
  unfold session_commit.
  destruct (faults s) as [|[|] fs]; destruct (unique_violation s); cbn; eauto.
Qed.

(** A top-up either commits one positive entry or fails in its [except]
    clause and leaves the store as it was. *)
Lemma topup_outcome now p u db fs :
  (exists resp row,
      run (topup now p u) db fs = (Return (Some resp), insert_transaction db row)
      /\ 0 < PaymentRequest.amount p
      /\ transaction.user_id row = user.id u
      /\ transaction.amount row = PaymentRequest.amount p
      /\ transaction.qr_id row = None)
  \/ run (topup now p u) db fs = (Raise MissingGreenlet, db).
Proof.
  unfold topup. msimpl.
  destruct (PaymentRequest.amount p <=? 0) eqn:Ha; msimpl; [now right|].
  bools.
  destruct fs as [|[|] fs]; msimpl; [left | now right | left];
    eexists _, _; (split; [reflexivity|]); cbn; auto.
Qed.

Lemma withdraw_outcome now p u db fs :
  (exists resp row,
      run (withdraw now p u) db fs = (Return resp, insert_transaction db row)
      /\ 0 < PaymentRequest.amount p
      /\ PaymentRequest.amount p <= User.total_balance u db
      /\ transaction.user_id row = user.id u
      /\ transaction.amount row = - PaymentRequest.amount p
      /\ transaction.qr_id row = None)
  \/ exists e, run (withdraw now p u) db fs = (Raise e, db).
Proof.
  unfold withdraw. msimpl.
  destruct (PaymentRequest.amount p <=? 0) eqn:Ha; msimpl; [right; eauto|].
  destruct (User.total_balance u db <=? 0) eqn:Hz; msimpl; [right; eauto|].
  destruct (PaymentRequest.amount p >? User.total_balance u db) eqn:Hb;
    msimpl; [right; eauto|].
  bools.
  destruct fs as [|[|] fs]; msimpl; [left | right; eauto | left];
    eexists _, _; (split; [reflexivity|]); cbn; auto.
Qed.

Lemma transfer_outcome now p u db fs :
  (exists resp recipient debit credit,
      run (transfer now p u) db fs
      = (Return resp, insert_transaction (insert_transaction db debit) credit)
      /\ User.get_by_username (TransferRequest.recipient_username p) db
         = Some recipient
      /\ user.id recipient <> user.id u
      /\ 0 < TransferRequest.amount p
      /\ TransferRequest.amount p <= User.total_balance u db
      /\ payment_rows (TransferRequest.amount p) (user.id u)
                      (user.id recipient) None debit credit)
  \/ exists e, run (transfer now p u) db fs = (Raise e, db).
Proof.
  unfold transfer. msimpl.
  destruct (TransferRequest.amount p <=? 0) eqn:Ha; msimpl; [right; eauto|].
  destruct (User.get_by_username _ db) as [r|] eqn:Hr; msimpl; [|right; eauto].
  destruct (user.id r =? user.id u) eqn:Hs; msimpl; [right; eauto|].
  destruct (TransferRequest.amount p >? User.total_balance u db) eqn:Hb;
    msimpl; [right; eauto|].
  bools.
  destruct fs as [|[|] fs]; msimpl; [left | right; eauto | left];
    exists_rows r.
Qed.

(** A redemption either commits the two rows of the payment, after every
    check of the route has passed, or raises and leaves the store as it
    was. *)
Lemma scan_qrcode_outcome now qr_id u amt db fs :
  (exists resp q owner k a debit credit,
      run (scan_qrcode now qr_id u amt) db fs
      = (Return resp, insert_transaction (insert_transaction db debit) credit)
      /\ QRCode.get_by_qr_id qr_id db = Some q
      /\ QRCode.is_expired now q = false
      /\ qrcode.max_use_count q = Some k
      /\ QRCode.current_use_count q db < k
      /\ QRCode.user q db = Some owner
      /\ user.id owner <> user.id u
      /\ 0 < a
      /\ match qrcode.qr_type q with
         | REQUEST_PAYMENT =>
             qrcode.amount q = Some a
             /\ a <= User.total_balance u db
             /\ payment_rows a (user.id u) (user.id owner)
                             (Some (qrcode.id q)) debit credit
         | SEND_PAYMENT =>
             amt = Some a
             /\ a <= User.total_balance owner db
             /\ payment_rows a (user.id owner) (user.id u)
                             (Some (qrcode.id q)) debit credit
         end)
  \/ exists e, run (scan_qrcode now qr_id u amt) db fs = (Raise e, db).
Proof.
  unfold scan_qrcode. msimpl.
  destruct (QRCode.get_by_qr_id qr_id db) as [q|] eqn:Hq; msimpl;
    [|right; eauto].
  destruct (QRCode.is_expired now q) eqn:Hx; msimpl; [right; eauto|].
  destruct (qrcode.max_use_count q) as [k|] eqn:Hk; msimpl; [|right; eauto].
  destruct (QRCode.current_use_count q db >=? k) eqn:Hc; msimpl;
    [right; eauto|].
  destruct (qrcode.qr_type q) eqn:Ht; msimpl.
  - destruct (qrcode.amount q) as [a|] eqn:Ha; msimpl; [|right; eauto].
    destruct (a <=? 0) eqn:Hp; msimpl; [right; eauto|].
    destruct (QRCode.user q db) as [owner|] eqn:Ho; msimpl; [|right; eauto].
    destruct (user.id owner =? user.id u) eqn:Hs; msimpl; [right; eauto|].
    destruct (a >? User.total_balance u db) eqn:Hb; msimpl; [right; eauto|].
    bools.
    destruct fs as [|[|] fs]; msimpl; [left | right; eauto | left];
      eexists _, q, owner, k, a, _, _; rewrite Ht;
      (split; [reflexivity|]); unfold payment_rows; cbn; auto 20.
  - destruct amt as [a|] eqn:Ha; msimpl; [|right; eauto].
    destruct (a <=? 0) eqn:Hp; msimpl; [right; eauto|].
    destruct (QRCode.user q db) as [owner|] eqn:Ho; msimpl; [|right; eauto].
    destruct (user.id u =? user.id owner) eqn:Hs; msimpl; [right; eauto|].
    destruct (a >? User.total_balance owner db) eqn:Hb; msimpl;
      [right; eauto|].
    bools.
    destruct fs as [|[|] fs]; msimpl; [left | right; eauto | left];
      eexists _, q, owner, k, a, _, _; rewrite Ht;
      (split; [reflexivity|]); unfold payment_rows; cbn; auto 20.
Qed.

(** Issuing a request voucher adds one voucher, or nothing. *)
Lemma qrcode_request_outcome st now uuid4 origin c u db fs :
  (exists resp row,
      run (qrcode_request st now uuid4 origin c u) db fs
      = (Return resp, insert_qrcode db row)
      /\ qrcode.id row = qrcode_seq db
      /\ qrcode.max_use_count row
         = Some (PaymentCollectionRequest.max_user_count c))
  \/ exists e, run (qrcode_request st now uuid4 origin c u) db fs = (Raise e, db).
Proof.
  unfold qrcode_request. msimpl.
  destruct (PaymentCollectionRequest.expire c) as [[e|e]|]; msimpl;
    try (right; eauto; fail).
  all: destruct fs as [|[|] fs]; msimpl; try (right; eauto; fail).
  all: cbn [qrcode.qr_id]; destruct (token_taken uuid4 db); msimpl;
    try (right; eauto; fail).
  all: left; eexists _, _; (split; [reflexivity|]); cbn; auto.
Qed.

(** Issuing a send voucher: the pruning and the new voucher are two
    commits, so a fault may leave the store pruned without the voucher. *)
Lemma qrcode_send_outcome now uuid4 origin u db fs :
  (exists resp,
      run (qrcode_send now uuid4 origin u) db fs
      = (Return resp,
         insert_qrcode (pruned db)
           (qrcode.Build uuid4 SEND_PAYMENT (Some 1) None now
              (Some (now + one_minute)) (user.id u) (qrcode_seq db))))
  \/ (exists e, run (qrcode_send now uuid4 origin u) db fs = (Raise e, db))
  \/ (exists e, run (qrcode_send now uuid4 origin u) db fs = (Raise e, pruned db)).
Proof.
  unfold qrcode_send. msimpl. fold (pruned db).
  destruct fs as [|[|] fs]; msimpl; try (right; left; eauto; fail).
  all: cbn [qrcode.qr_id]; try destruct fs as [|[|] fs]; msimpl;
    try (right; right; eauto; fail).
  all: destruct (token_taken uuid4 (pruned db)); msimpl;
    try (right; right; eauto; fail).
  all: left; eexists; reflexivity.
Qed.

(** Looking a voucher up writes nothing. *)
Lemma get_qrcode_by_uuid_reads now qr_id u db fs :
  snd (run (get_qrcode_by_uuid now qr_id u) db fs) = db.
Proof.
  unfold get_qrcode_by_uuid. msimpl.
  destruct (QRCode.get_by_qr_id qr_id db) as [q|]; msimpl; [|reflexivity].
  destruct (QRType_eqb _ _ && _); reflexivity.
Qed.

Lemma insert_two_rows db debit credit :
  transaction_table (insert_transaction (insert_transaction db debit) credit)
  = transaction_table db ++ [debit; credit].
Proof. unfold insert_transaction. simpl. now rewrite <- app_assoc. Qed.

Lemma payment_is_double_entry a payer payee v debit credit db :
  payment_rows a payer payee v debit credit ->
  double_entry a payer payee db
    (insert_transaction (insert_transaction db debit) credit).
Proof.
  intros (H1 & H2 & _ & H3 & H4 & _).
  exists debit, credit. rewrite insert_two_rows. auto.
Qed.

(** C1.  A transfer or a voucher redemption that commits has added to the
    ledger exactly two entries, a debit of the amount on the payer and a
    credit of the same amount on the payee, and both in one commit: when the
    request fails, for a refused check or a refused commit, the store is the
    one before the request, with neither entry. *)
Theorem double_entry_atomic :
  (forall now p u db fs,
      match run (transfer now p u) db fs with
      | (Return _, db') =>
          exists recipient,
            User.get_by_username (TransferRequest.recipient_username p) db
            = Some recipient
            /\ double_entry (TransferRequest.amount p)
                            (user.id u) (user.id recipient) db db'
      | (Raise _, db') => db' = db
      end)
  /\ (forall now qr_id u amt db fs,
         match run (scan_qrcode now qr_id u amt) db fs with
         | (Return _, db') =>
             exists q owner a,
               QRCode.get_by_qr_id qr_id db = Some q
               /\ QRCode.user q db = Some owner
               /\ match qrcode.qr_type q with
                  | REQUEST_PAYMENT =>
                      qrcode.amount q = Some a
                      /\ double_entry a (user.id u) (user.id owner) db db'
                  | SEND_PAYMENT =>
                      amt = Some a
                      /\ double_entry a (user.id owner) (user.id u) db db'
                  end
         | (Raise _, db') => db' = db
         end).
Proof.
  split.
  - intros now p u db fs.
    destruct (transfer_outcome now p u db fs)
      as [(resp & r & debit & credit & E & Hr & _ & _ & _ & Hrows) | (e & E)];
      rewrite E; [|reflexivity].
    exists r. split; [exact Hr|].
    eapply payment_is_double_entry; eauto.
  - intros now qr_id u amt db fs.
    destruct (scan_qrcode_outcome now qr_id u amt db fs)
      as [(resp & q & owner & k & a & debit & credit & E & Hq & _ & _ & _
           & Ho & _ & _ & Hty) | (e & E)];
      rewrite E; [|reflexivity].
    exists q, owner, a. split; [exact Hq|]. split; [exact Ho|].
    destruct (qrcode.qr_type q); destruct Hty as (Ha & _ & Hrows);
      (split; [exact Ha|]); eapply payment_is_double_entry; eauto.
Qed.

(* ------------------------------------------------------------------ *)
(** ** No overdraft *)

Lemma ledger_sum_two_rows i db debit credit :
  ledger_sum i
    (transaction_table (insert_transaction (insert_transaction db debit) credit))
  = ledger_sum i (transaction_table db)
    + (if transaction.user_id debit =? i then transaction.amount debit else 0)
    + (if transaction.user_id credit =? i then transaction.amount credit else 0).
Proof.
  rewrite insert_two_rows.
  change [debit; credit] with ([debit] ++ [credit]).
  rewrite !ledger_sum_app, !ledger_sum_one. lia.
Qed.

(** A payment takes exactly its amount from the payer. *)
Lemma payment_debits_payer a payer payee v debit credit db :
  payment_rows a payer payee v debit credit ->
  payee <> payer ->
  ledger_sum payer
    (transaction_table (insert_transaction (insert_transaction db debit) credit))
  = ledger_sum payer (transaction_table db) - a.
Proof.
  intros (H1 & H2 & _ & H3 & H4 & _) Hne.
  rewrite ledger_sum_two_rows, H1, H2, H3, H4, Z.eqb_refl.
  destruct (payee =? payer) eqn:E; bools; [contradiction | lia].
Qed.

(** A covered payment leaves no account below zero that was not below
    zero. *)
Lemma payment_keeps_nonneg i a payer payee v debit credit db :
  payment_rows a payer payee v debit credit ->
  0 < a ->
  a <= ledger_sum payer (transaction_table db) ->
  0 <= ledger_sum i (transaction_table db) ->
  0 <= ledger_sum i
         (transaction_table
            (insert_transaction (insert_transaction db debit) credit)).
Proof.
  intros (H1 & H2 & _ & H3 & H4 & _) Ha Hcov Hi.
  rewrite ledger_sum_two_rows, H1, H2, H3, H4.
  destruct (payer =? i) eqn:E1; destruct (payee =? i) eqn:E2; bools;
    subst; lia.
Qed.

Lemma serve_keeps_nonneg (acct : User) rq db :
  0 <= User.total_balance acct db ->
  0 <= User.total_balance acct (serve rq db).
Proof.
  destruct rq as [r fs]. rewrite !total_balance_ledger_sum.
  intros H. destruct r; cbn [serve].
  - destruct (topup_outcome now payment current_user db fs)
      as [(resp & row & E & Ha & Hu & Hr & _) | E]; rewrite E; cbn [snd];
      [|exact H].
    unfold insert_transaction; cbn [transaction_table].
    rewrite ledger_sum_app, ledger_sum_one, Hr.
    destruct (_ =? _); lia.
  - destruct (withdraw_outcome now payment current_user db fs)
      as [(resp & row & E & Ha & Hb & Hu & Hr & _) | (e & E)]; rewrite E;
      cbn [snd]; [|exact H].
    rewrite total_balance_ledger_sum in Hb.
    unfold insert_transaction; cbn [transaction_table].
    rewrite ledger_sum_app, ledger_sum_one, Hr, Hu.
    destruct (_ =? _) eqn:Eq; bools; [rewrite <- Eq|]; lia.
  - destruct (transfer_outcome now payment current_user db fs)
      as [(resp & r & debit & credit & E & _ & _ & Ha & Hb & Hrows) | (e & E)];
      rewrite E; cbn [snd]; [|exact H].
    rewrite total_balance_ledger_sum in Hb.
    eapply payment_keeps_nonneg; eauto.
  - destruct (qrcode_request_outcome settings now uuid4 origin collect
                current_user db fs)
      as [(resp & row & E & _) | (e & E)]; rewrite E; cbn [snd]; exact H.
  - destruct (qrcode_send_outcome now uuid4 origin current_user db fs)
      as [(resp & E) | [(e & E) | (e & E)]]; rewrite E; cbn [snd]; exact H.
  - destruct (scan_qrcode_outcome now qr_id current_user amount db fs)
      as [(resp & q & owner & k & a & debit & credit & E & _ & _ & _ & _
           & _ & _ & Ha & Hty) | (e & E)];
      rewrite E; cbn [snd]; [|exact H].
    destruct (qrcode.qr_type q); destruct Hty as (_ & Hb & Hrows);
      rewrite total_balance_ledger_sum in Hb;
      eapply payment_keeps_nonneg; eauto.
  - now rewrite get_qrcode_by_uuid_reads.
Qed.

Lemma serve_all_keeps_nonneg (acct : User) rqs :
  forall db,
    0 <= User.total_balance acct db ->
    0 <= User.total_balance acct (serve_all rqs db).
Proof.
  induction rqs as [|rq rest IH]; intros db H; cbn [serve_all].
  - exact H.
  - apply IH. now apply serve_keeps_nonneg.
Qed.

(** C3.  Along every sequence of requests an account whose balance is not
    negative keeps a balance that is not negative; and a withdrawal, a
    transfer, the redemption of a request voucher (the redeemer pays) and
    the redemption of a send voucher (the owner pays) commit only when the
    balance of the payer covers the amount, which is then exactly what the
    payer loses. *)
Theorem no_overdraft :
  (forall (acct : User) rqs db,
      0 <= User.total_balance acct db ->
      0 <= User.total_balance acct (serve_all rqs db))
  /\ (forall now p u db fs,
         match run (withdraw now p u) db fs with
         | (Return _, db') =>
             PaymentRequest.amount p <= User.total_balance u db
             /\ User.total_balance u db'
                = User.total_balance u db - PaymentRequest.amount p
         | (Raise _, db') => db' = db
         end)
  /\ (forall now p u db fs,
         match run (transfer now p u) db fs with
         | (Return _, db') =>
             TransferRequest.amount p <= User.total_balance u db
             /\ User.total_balance u db'
                = User.total_balance u db - TransferRequest.amount p
         | (Raise _, db') => db' = db
         end)
  /\ (forall now qr_id u amt db fs,
         match run (scan_qrcode now qr_id u amt) db fs with
         | (Return _, db') =>
             exists q owner a,
               QRCode.get_by_qr_id qr_id db = Some q
               /\ QRCode.user q db = Some owner
               /\ match qrcode.qr_type q with
                  | REQUEST_PAYMENT =>
                      qrcode.amount q = Some a
                      /\ a <= User.total_balance u db
                      /\ User.total_balance u db' = User.total_balance u db - a
                  | SEND_PAYMENT =>
                      amt = Some a
                      /\ a <= User.total_balance owner db
                      /\ User.total_balance owner db'
                         = User.total_balance owner db - a
                  end
         | (Raise _, db') => db' = db
         end).
Proof.
  split; [exact serve_all_keeps_nonneg|]. split; [|split].
  - intros now p u db fs.
    destruct (withdraw_outcome now p u db fs)
      as [(resp & row & E & Ha & Hb & Hu & Hr & _) | (e & E)]; rewrite E;
      [|reflexivity].
    split; [exact Hb|].
    rewrite total_balance_insert, Hu, Hr, Z.eqb_refl. lia.
  - intros now p u db fs.
    destruct (transfer_outcome now p u db fs)
      as [(resp & r & debit & credit & E & _ & Hne & Ha & Hb & Hrows) | (e & E)];
      rewrite E; [|reflexivity].
    split; [exact Hb|].
    rewrite !total_balance_ledger_sum.
    eapply payment_debits_payer; eauto.
  - intros now qr_id u amt db fs.
    destruct (scan_qrcode_outcome now qr_id u amt db fs)
      as [(resp & q & owner & k & a & debit & credit & E & Hq & _ & _ & _
           & Ho & Hne & Ha & Hty) | (e & E)];
      rewrite E; [|reflexivity].
    exists q, owner, a. split; [exact Hq|]. split; [exact Ho|].
    destruct (qrcode.qr_type q); destruct Hty as (Hamt & Hb & Hrows);
      (split; [exact Hamt|]); (split; [exact Hb|]);
      rewrite !total_balance_ledger_sum;
      eapply payment_debits_payer; eauto.
Qed.

Lemma no_overdraft_witness :
  0 <= User.total_balance alice
         (serve_all
            [(Withdraw 11 (PaymentRequest.Build 3000) alice, []);
             (Transfer 12 (TransferRequest.Build 9000 "bob" EmptyString) alice, []);
             (Transfer 13 (TransferRequest.Build 7000 "bob" EmptyString) alice, [])]
            db1).
Proof.
  apply (proj1 no_overdraft). apply Z.leb_le. reflexivity.
Defined.

(* ------------------------------------------------------------------ *)
(** ** The use count of a voucher *)

Lemma find_by_pk (l : list QRCode) (q : QRCode) :
  NoDup (map qrcode.id l) ->
  In q l ->
  find (fun q' => qrcode.id q' =? qrcode.id q) l = Some q.
Proof.
  induction l as [|x l IH]; intros Hnd Hin; [contradiction|].
  cbn [map] in Hnd. inversion Hnd as [|? ? Hx Hl]; subst.
  cbn [find]. destruct Hin as [-> | Hin].
  - now rewrite Z.eqb_refl.
  - destruct (qrcode.id x =? qrcode.id q) eqn:E; [|now apply IH].
    bools. exfalso. apply Hx. rewrite E. now apply in_map.
Qed.

Lemma owner_subquery_pk (q : QRCode) (s : string) (db : DB) :
  qrcode_pk db ->
  QRCode.get_by_qr_id s db = Some q ->
  QRCode.owner_subquery (qrcode.id q) db = Some (qrcode.user_id q).
Proof.
  intros Hpk Hq. unfold QRCode.owner_subquery.
  apply find_some in Hq. destruct Hq as [Hin _].
  now rewrite (find_by_pk _ q Hpk Hin).
Qed.

Lemma QRCode_user_id (q : QRCode) (owner : User) (db : DB) :
  QRCode.user q db = Some owner -> user.id owner = qrcode.user_id q.
Proof.
  intros H. apply find_some in H. destruct H as [_ H]. now bools.
Qed.

(** A payment through a voucher between its owner and somebody else counts
    as one use: of its two rows only the owner's is counted. *)
Lemma payment_is_one_use (q : QRCode) a payer payee debit credit db :
  payment_rows a payer payee (Some (qrcode.id q)) debit credit ->
  QRCode.owner_subquery (qrcode.id q) db = Some (qrcode.user_id q) ->
  (payer = qrcode.user_id q /\ payee <> qrcode.user_id q)
  \/ (payee = qrcode.user_id q /\ payer <> qrcode.user_id q) ->
  QRCode.current_use_count q
    (insert_transaction (insert_transaction db debit) credit)
  = QRCode.current_use_count q db + 1.
Proof.
  intros (H1 & _ & H2 & H3 & _ & H4) Ho Hside.
  unfold QRCode.current_use_count. rewrite !py_or_zero.
  rewrite insert_two_rows.
  change (QRCode.owner_subquery (qrcode.id q)
            (insert_transaction (insert_transaction db debit) credit))
    with (QRCode.owner_subquery (qrcode.id q) db).
  rewrite Ho, filter_app, length_app, Nat2Z.inj_add.
  f_equal. cbn [filter]. rewrite H1, H2, H3, H4.
  cbn [sql_eq_where]. rewrite Z.eqb_refl. cbn [andb].
  destruct Hside as [[-> Hne] | [-> Hne]]; rewrite Z.eqb_refl;
    apply Z.eqb_neq in Hne; rewrite Z.eqb_sym in Hne; rewrite Hne;
    reflexivity.
Qed.

(** C4.  A redemption commits only when the use count read before it is
    strictly below [max_use_count]; the pair of entries it writes raises the
    use count by exactly one, so that the count at the commit does not
    exceed [max_use_count]. *)
Theorem use_count_bounded_at_commit now qr_id u amt db fs :
  qrcode_pk db ->
  match run (scan_qrcode now qr_id u amt) db fs with
  | (Return _, db') =>
      exists q k,
        QRCode.get_by_qr_id qr_id db = Some q
        /\ qrcode.max_use_count q = Some k
        /\ QRCode.current_use_count q db < k
        /\ QRCode.current_use_count q db' = QRCode.current_use_count q db + 1
        /\ QRCode.current_use_count q db' <= k
  | (Raise _, db') => db' = db
  end.
Proof.
  intros Hpk.
  destruct (scan_qrcode_outcome now qr_id u amt db fs)
    as [(resp & q & owner & k & a & debit & credit & E & Hq & _ & Hk & Hc
         & Ho & Hne & Ha & Hty) | (e & E)];
    rewrite E; [|reflexivity].
  exists q, k. split; [exact Hq|]. split; [exact Hk|]. split; [exact Hc|].
  pose proof (owner_subquery_pk q qr_id db Hpk Hq) as Hsub.
  pose proof (QRCode_user_id q owner db Ho) as Hid.
  assert (Hone : QRCode.current_use_count q
                   (insert_transaction (insert_transaction db debit) credit)
                 = QRCode.current_use_count q db + 1).
  { destruct (qrcode.qr_type q); destruct Hty as (_ & _ & Hrows);
      eapply payment_is_one_use; eauto.
    - right. split; [exact Hid | congruence].
    - left. split; [exact Hid | congruence]. }
  split; [exact Hone | lia].
Qed.

Lemma use_count_bounded_at_commit_witness :
  match run (scan_qrcode 30 "token-req" alice None) db_request [] with
  | (Return _, db') =>
      exists q k,
        QRCode.get_by_qr_id "token-req" db_request = Some q
        /\ qrcode.max_use_count q = Some k
        /\ QRCode.current_use_count q db_request < k
        /\ QRCode.current_use_count q db'
           = QRCode.current_use_count q db_request + 1
        /\ QRCode.current_use_count q db' <= k
  | (Raise _, db') => db' = db_request
  end.
Proof.
  apply use_count_bounded_at_commit.
  unfold qrcode_pk. simpl. constructor; [simpl; tauto | constructor].
Defined.

(* ------------------------------------------------------------------ *)
(** ** Errors of the top-up *)

(** C5.  A top-up of an amount that is not positive appends no entry, and
    [InvalidAmountException] does not reach the caller.  The route raises
    it, and its [except] clause catches it, rolls back, and then evaluates
    the log line, which reads [current_user.username] on the user the
    rollback has just expired: the caller gets [MissingGreenlet].  The
    clause has no [raise] after the log line either. *)
Theorem topup_hides_invalid_amount now p u db fs :
  PaymentRequest.amount p <= 0 ->
  run (topup now p u) db fs = (Raise MissingGreenlet, db)
  /\ forall detail, MissingGreenlet <> InvalidAmountException detail.
Proof.
  intros Ha. split; [|discriminate]. unfold topup. msimpl.
  destruct (PaymentRequest.amount p <=? 0) eqn:E; msimpl; [reflexivity|].
  bools. lia.
Qed.

Lemma topup_hides_invalid_amount_witness :
  run (topup 10 (PaymentRequest.Build (-500)) alice) db1 []
  = (Raise MissingGreenlet, db1)
  /\ forall detail, MissingGreenlet <> InvalidAmountException detail.
Proof.
  apply topup_hides_invalid_amount. simpl. lia.
Defined.

(** The sibling route that logs before it rolls back raises the error of
    the same check. *)
Lemma transfer_raises_invalid_amount now p u db fs :
  TransferRequest.amount p <= 0 ->
  run (transfer now p u) db fs
  = (Raise (InvalidAmountException
              "Transfer amount must be greater than zero"), db).
Proof.
  intros Ha. unfold transfer. msimpl.
  destruct (TransferRequest.amount p <=? 0) eqn:E; msimpl; [reflexivity|].
  bools. lia.
Qed.

(** The withdrawal, which rolls back before it logs as the top-up does,
    loses the error in the same way. *)
Lemma withdraw_loses_invalid_amount now p u db fs :
  PaymentRequest.amount p <= 0 ->
  run (withdraw now p u) db fs = (Raise MissingGreenlet, db).
Proof.
  intros Ha. unfold withdraw. msimpl.
  destruct (PaymentRequest.amount p <=? 0) eqn:E; msimpl; [reflexivity|].
  bools. lia.
Qed.

(** A refused commit of a top-up ends in the same way. *)
Lemma topup_loses_commit_fault now p u db fs :
  run (topup now p u) db (true :: fs) = (Raise MissingGreenlet, db).
Proof.
  unfold topup. msimpl.
  destruct (PaymentRequest.amount p <=? 0); reflexivity.
Qed.

(* ------------------------------------------------------------------ *)
(** ** Payments to oneself *)

(** C6, as stated, fails: a transfer to oneself of an amount that is not
    positive is refused for its amount, and the redemption of one's own
    expired voucher for the expiry. *)
Lemma self_payment_other_error :
  User.get_by_username "alice" db1 = Some alice
  /\ run (transfer 11 (TransferRequest.Build 0 "alice" EmptyString) alice) db1 []
     = (Raise (InvalidAmountException
                 "Transfer amount must be greater than zero"), db1)
  /\ InvalidAmountException "Transfer amount must be greater than zero"
     <> SelfTransferDisallowed
  /\ QRCode.get_by_qr_id "token-req" db_request = Some request_voucher
  /\ QRCode.user request_voucher db_request = Some bob
  /\ run (scan_qrcode 168000021 "token-req" bob None) db_request []
     = (Raise (TransactionNotFoundException
                 "QR code has expired or is invalid"), db_request)
  /\ TransactionNotFoundException "QR code has expired or is invalid"
     <> SelfTransferDisallowed.
Proof.
  repeat split; try reflexivity; discriminate.
Qed.

(** C6, amended.  A transfer or a redemption whose payer is its payee always
    fails and appends no entry, with the error of the first check of the
    route that fails.  For a transfer: the amount, then the payment to
    oneself.  For a redemption: the expiry, the use limit ([TypeError] when
    the voucher has no limit to compare with), the amount, then the payment
    to oneself.  The payment to oneself is refused with
    [InvalidAmountException "Cannot transfer to yourself"]. *)
Theorem self_payment_rejected :
  (forall now p u db fs recipient,
      User.get_by_username (TransferRequest.recipient_username p) db
      = Some recipient ->
      user.id recipient = user.id u ->
      exists e,
        run (transfer now p u) db fs = (Raise e, db)
        /\ ((TransferRequest.amount p <= 0
             /\ e = InvalidAmountException
                      "Transfer amount must be greater than zero")
            \/ (0 < TransferRequest.amount p
                /\ e = SelfTransferDisallowed)))
  /\ (forall now qr_id u amt db fs q owner,
         QRCode.get_by_qr_id qr_id db = Some q ->
         QRCode.user q db = Some owner ->
         user.id owner = user.id u ->
         exists e,
           run (scan_qrcode now qr_id u amt) db fs = (Raise e, db)
           /\ ((QRCode.is_expired now q = true
                /\ e = TransactionNotFoundException
                         "QR code has expired or is invalid")
               \/ (QRCode.is_expired now q = false
                   /\ qrcode.max_use_count q = None
                   /\ e = TypeError)
               \/ (QRCode.is_expired now q = false
                   /\ (exists k, qrcode.max_use_count q = Some k
                                  /\ k <= QRCode.current_use_count q db)
                   /\ e = TransactionNotFoundException
                            "QR code has reached its maximum usage limit")
               \/ (QRCode.is_expired now q = false
                   /\ (exists k, qrcode.max_use_count q = Some k
                                  /\ QRCode.current_use_count q db < k)
                   /\ match qrcode.qr_type q with
                      | REQUEST_PAYMENT =>
                          (qrcode.amount q = None
                           \/ exists a, qrcode.amount q = Some a /\ a <= 0)
                          /\ e = InvalidAmountException
                                   "QR code has invalid amount"
                      | SEND_PAYMENT =>
                          (amt = None \/ exists a, amt = Some a /\ a <= 0)
                          /\ e = InvalidAmountException
                                   "Amount must be specified and greater than zero"
                      end)
               \/ (QRCode.is_expired now q = false
                   /\ (exists k, qrcode.max_use_count q = Some k
                                  /\ QRCode.current_use_count q db < k)
                   /\ (exists a, 0 < a
                                  /\ match qrcode.qr_type q with
                                     | REQUEST_PAYMENT =>
                                         qrcode.amount q = Some a
                                     | SEND_PAYMENT => amt = Some a
                                     end)
                   /\ e = SelfTransferDisallowed))).
Proof.
  split.
  - intros now p u db fs r Hr Hs.
    unfold transfer. msimpl.
    destruct (TransferRequest.amount p <=? 0) eqn:Ha; msimpl; bools.
    + eexists. split; [reflexivity | left; auto].
    + rewrite Hr. msimpl. rewrite Hs, Z.eqb_refl. msimpl.
      eexists. split; [reflexivity | right; auto].
  - intros now qr_id u amt db fs q owner Hq Ho Hs.
    unfold scan_qrcode. msimpl. rewrite Hq. msimpl.
    destruct (QRCode.is_expired now q) eqn:Hx; msimpl.
    { eexists. split; [reflexivity | left; auto]. }
    destruct (qrcode.max_use_count q) as [k|] eqn:Hk; msimpl.
    2:{ eexists. split; [reflexivity | right; left; auto]. }
    destruct (QRCode.current_use_count q db >=? k) eqn:Hc; msimpl; bools.
    { eexists. split; [reflexivity | right; right; left; eauto 6]. }
    destruct (qrcode.qr_type q) eqn:Ht; msimpl.
    + destruct (qrcode.amount q) as [a|] eqn:Ha; msimpl.
      2:{ eexists. split; [reflexivity | do 3 right; left; eauto 8]. }
      destruct (a <=? 0) eqn:Hp; msimpl; bools.
      { eexists. split; [reflexivity | do 3 right; left].
        repeat split; eauto. }
      rewrite Ho. msimpl. rewrite Hs, Z.eqb_refl. msimpl.
      eexists. split; [reflexivity | do 4 right]. repeat split; eauto.
    + destruct amt as [a|] eqn:Ha; msimpl.
      2:{ eexists. split; [reflexivity | do 3 right; left; eauto 8]. }
      destruct (a <=? 0) eqn:Hp; msimpl; bools.
      { eexists. split; [reflexivity | do 3 right; left].
        repeat split; eauto. }
      rewrite Ho. msimpl. rewrite Hs, Z.eqb_refl. msimpl.
      eexists. split; [reflexivity | do 4 right]. repeat split; eauto.
Qed.

Lemma self_payment_rejected_witness :
  run (transfer 11 (TransferRequest.Build 5000 "alice" EmptyString) alice)
      db1 []
  = (Raise SelfTransferDisallowed, db1)
  /\ run (scan_qrcode 30 "token-req" bob None) db_request []
     = (Raise SelfTransferDisallowed, db_request).
Proof.
  split.
  - destruct (proj1 self_payment_rejected 11
                (TransferRequest.Build 5000 "alice" EmptyString)
                alice db1 [] alice eq_refl eq_refl)
      as (e & E & [[Ha _] | [_ He]]).
    + simpl in Ha. lia.
    + now rewrite E, He.
  - destruct (proj2 self_payment_rejected 30 "token-req" bob None db_request []
                request_voucher bob eq_refl eq_refl eq_refl)
      as (e & E & [[H _] | [(_ & H & _) | [(_ & (k & Hk & Hle) & _)
                  | [(_ & _ & [[H | (a & H & Ha)] _]) | (_ & _ & _ & He)]]]]).
    + discriminate H.
    + discriminate H.
    + injection Hk as <-. vm_compute in Hle. now destruct Hle.
    + discriminate H.
    + injection H as <-. lia.
    + now rewrite E, He.
Defined.

(* ------------------------------------------------------------------ *)
(** ** Pruning unused send vouchers *)

Lemma existsb_qr_id (x : Z) (rows : list Transaction) :
  existsb (fun v => sql_eq_where v x) (map transaction.qr_id rows)
  = existsb (fun r => sql_eq_where (transaction.qr_id r) x) rows.
Proof.
  induction rows as [|r rows IH]; cbn [map existsb]; [reflexivity|].
  now rewrite IH.
Qed.

Lemma existsb_null (rows : list Transaction) :
  existsb (fun v : option Z => match v with None => true | Some _ => false end)
          (map transaction.qr_id rows) = true
  <-> exists r, In r rows /\ transaction.qr_id r = None.
Proof.
  rewrite existsb_exists. split.
  - intros (v & Hin & Hv). apply in_map_iff in Hin.
    destruct Hin as (r & <- & Hin). exists r. split; [exact Hin|].
    destruct (transaction.qr_id r); [discriminate | reflexivity].
  - intros (r & Hin & Hr). exists None. split; [|reflexivity].
    rewrite <- Hr. now apply in_map.
Qed.

(** Without a NULL in [transaction.qr_id], the DELETE selects the send
    vouchers that no entry references, whoever owns them. *)
Lemma clean_where_without_null (db : DB) (q : QRCode) :
  ~ has_null_qr_id db ->
  QRCode.clean_where db q
  = QRType_eqb (qrcode.qr_type q) SEND_PAYMENT && negb (referenced q db).
Proof.
  intros Hn. unfold QRCode.clean_where, sql_not_in, referenced.
  rewrite existsb_qr_id.
  destruct (existsb (fun r => sql_eq_where (transaction.qr_id r) (qrcode.id q))
                    (transaction_table db)); [reflexivity|].
  destruct (existsb (fun v : option Z =>
                       match v with None => true | Some _ => false end)
                    (map transaction.qr_id (transaction_table db))) eqn:E;
    [|reflexivity].
  exfalso. apply Hn. now apply existsb_null.
Qed.

(** With a NULL in [transaction.qr_id], the DELETE selects nothing. *)
Lemma clean_where_with_null (db : DB) (q : QRCode) :
  has_null_qr_id db -> QRCode.clean_where db q = false.
Proof.
  intros Hn. unfold QRCode.clean_where, sql_not_in.
  apply existsb_null in Hn. rewrite Hn.
  destruct (existsb (fun v => sql_eq_where v (qrcode.id q))
                    (map transaction.qr_id (transaction_table db)));
    cbn [sql_where]; apply andb_false_r.
Qed.

Lemma filter_all {A} (f : A -> bool) (l : list A) :
  (forall x, f x = true) -> filter f l = l.
Proof.
  intros H. induction l as [|x l IH]; cbn [filter]; [reflexivity|].
  now rewrite H, IH.
Qed.

Lemma pruned_with_null (db : DB) : has_null_qr_id db -> pruned db = db.
Proof.
  intros Hn. unfold pruned. rewrite filter_all.
  - now destruct db.
  - intros q. now rewrite clean_where_with_null.
Qed.

(** C7, as stated, fails: on a ledger without entries Bob holds an unused
    send voucher; Alice issues a send voucher of her own, and Bob's is
    gone. *)
Lemma prune_deletes_voucher_of_another_owner :
  In bob_voucher (qrcode_table db_bob_send)
  /\ qrcode.qr_type bob_voucher = SEND_PAYMENT
  /\ QRCode.current_use_count bob_voucher db_bob_send = 0
  /\ qrcode.user_id bob_voucher = user.id bob
  /\ user.id bob <> user.id alice
  /\ ~ In bob_voucher
       (qrcode_table
          (after (qrcode_send 101 "token-alice" None alice) db_bob_send)).
Proof.
  repeat split; try (left; reflexivity); try discriminate.
  vm_compute. intros [H | []]. discriminate.
Qed.

(** C7, amended.  When no ledger entry has a NULL voucher reference, the
    pruning that precedes the issue of a send voucher deletes exactly the
    send vouchers that no ledger entry references, whoever owns them; every
    other voucher stays as it is, and the new voucher is added. *)
Theorem prune_deletes_unreferenced_send_vouchers now uuid4 origin u db fs :
  ~ has_null_qr_id db ->
  match run (qrcode_send now uuid4 origin u) db fs with
  | (Return _, db') =>
      qrcode_table db'
      = filter (fun q => negb (QRType_eqb (qrcode.qr_type q) SEND_PAYMENT
                               && negb (referenced q db)))
               (qrcode_table db)
        ++ [qrcode.Build uuid4 SEND_PAYMENT (Some 1) None now
              (Some (now + one_minute)) (user.id u) (qrcode_seq db)]
  | (Raise _, db') =>
      qrcode_table db' = qrcode_table db
      \/ qrcode_table db'
         = filter (fun q => negb (QRType_eqb (qrcode.qr_type q) SEND_PAYMENT
                                  && negb (referenced q db)))
                  (qrcode_table db)
  end.
Proof.
  intros Hn.
  assert (Hp : qrcode_table (pruned db)
               = filter (fun q => negb (QRType_eqb (qrcode.qr_type q) SEND_PAYMENT
                                        && negb (referenced q db)))
                        (qrcode_table db)).
  { unfold pruned. cbn [set_qrcode_table qrcode_table].
    apply filter_ext. intros q. now rewrite clean_where_without_null. }
  destruct (qrcode_send_outcome now uuid4 origin u db fs)
    as [(resp & E) | [(e & E) | (e & E)]]; rewrite E.
  - unfold insert_qrcode. cbn [qrcode_table]. now rewrite Hp.
  - now left.
  - right. exact Hp.
Qed.

Lemma prune_deletes_unreferenced_send_vouchers_witness :
  qrcode_table (after (qrcode_send 101 "token-alice" None alice) db_bob_send)
  = [qrcode.Build "token-alice" SEND_PAYMENT (Some 1) None 101
       (Some (101 + one_minute)) 1 2].
Proof.
  pose proof (prune_deletes_unreferenced_send_vouchers
                101 "token-alice" None alice db_bob_send []) as H.
  unfold after.
  destruct (run (qrcode_send 101 "token-alice" None alice) db_bob_send [])
    as [[resp | e] db'] eqn:E.
  - cbn [snd]. rewrite H; [reflexivity|].
    intros (r & Hin & _). exact Hin.
  - vm_compute in E. discriminate.
Defined.

(** C8.  When some ledger entry has a NULL voucher reference, as every
    top-up and withdrawal entry has, the DELETE of the pruning selects no
    row: the condition [id NOT IN (SELECT qr_id FROM transaction)] is never
    true.  Issuing a send voucher then deletes no voucher at all. *)
Theorem prune_deletes_nothing_with_null now uuid4 origin u db fs :
  has_null_qr_id db ->
  (forall q, QRCode.clean_where db q = false)
  /\ (fst (run QRCode.clean_unused_send_qrcodes db fs) = Return 0
      \/ fst (run QRCode.clean_unused_send_qrcodes db fs) = Raise DBAPIError)
  /\ snd (run QRCode.clean_unused_send_qrcodes db fs) = db
  /\ match run (qrcode_send now uuid4 origin u) db fs with
     | (Return _, db') =>
         qrcode_table db'
         = qrcode_table db
           ++ [qrcode.Build uuid4 SEND_PAYMENT (Some 1) None now
                 (Some (now + one_minute)) (user.id u) (qrcode_seq db)]
     | (Raise _, db') => db' = db
     end.
Proof.
  intros Hn.
  pose proof (pruned_with_null db Hn) as Hp.
  assert (Hd : filter (QRCode.clean_where db) (qrcode_table db) = []).
  { induction (qrcode_table db) as [|q l IH]; cbn [filter]; [reflexivity|].
    now rewrite clean_where_with_null. }
  split; [intros q; now apply clean_where_with_null|].
  split; [|split].
  - msimpl. rewrite Hd.
    destruct fs as [|[|] fs]; msimpl; auto.
  - msimpl. fold (pruned db). rewrite Hp.
    destruct fs as [|[|] fs]; reflexivity.
  - destruct (qrcode_send_outcome now uuid4 origin u db fs)
      as [(resp & E) | [(e & E) | (e & E)]]; rewrite E.
    + now rewrite Hp.
    + reflexivity.
    + exact Hp.
Qed.

Lemma prune_deletes_nothing_with_null_witness :
  qrcode_table (after (qrcode_send 101 "token-bob2" None bob) db_send)
  = qrcode_table db_send
    ++ [qrcode.Build "token-bob2" SEND_PAYMENT (Some 1) None 101
          (Some (101 + one_minute)) 2 2].
Proof.
  assert (Hn : has_null_qr_id db_send).
  { eexists. split; [left; reflexivity | reflexivity]. }
  pose proof (prune_deletes_nothing_with_null
                101 "token-bob2" None bob db_send [] Hn) as (_ & _ & _ & H).
  unfold after.
  destruct (run (qrcode_send 101 "token-bob2" None bob) db_send [])
    as [[resp | e] db'] eqn:E.
  - cbn [snd]. exact H.
  - vm_compute in E. discriminate.
Defined.

(* ------------------------------------------------------------------ *)
(** ** Vouchers that cannot be redeemed *)

(** C9, as stated, fails: on one state of the store, in which Bob's voucher
    is used up, Carol's redemption is answered "...maximum usage limit"
    before the expiry and "...expired or is invalid" after it.  The two
    answers differ. *)
Lemma expired_and_exhausted_answers_differ :
  QRCode.get_by_qr_id "token-req" db_request_used = Some request_voucher
  /\ qrcode.max_use_count request_voucher = Some 1
  /\ QRCode.current_use_count request_voucher db_request_used = 1
  /\ QRCode.is_expired 40 request_voucher = false
  /\ QRCode.is_expired 168000021 request_voucher = true
  /\ fst (run (scan_qrcode 40 "token-req" carol None) db_request_used [])
     = Raise (TransactionNotFoundException
                "QR code has reached its maximum usage limit")
  /\ fst (run (scan_qrcode 168000021 "token-req" carol None) db_request_used [])
     = Raise (TransactionNotFoundException "QR code has expired or is invalid")
  /\ fst (run (scan_qrcode 40 "token-req" carol None) db_request_used [])
     <> fst (run (scan_qrcode 168000021 "token-req" carol None)
                 db_request_used [])
  /\ http_response (TransactionNotFoundException
                      "QR code has reached its maximum usage limit")
     <> http_response (TransactionNotFoundException
                         "QR code has expired or is invalid").
Proof.
  repeat split; try reflexivity; vm_compute; discriminate.
Qed.

(** C9, amended.  The redemption of an expired voucher and the redemption
    of a used-up voucher are both refused with a
    [TransactionNotFoundException], status 400, and without any write; the
    detail of the answer tells them apart: "QR code has expired or is
    invalid" for an expired voucher, used up or not, and "QR code has
    reached its maximum usage limit" for one that is used up and not
    expired. *)
Theorem unusable_voucher_answers now qr_id u amt db fs q :
  QRCode.get_by_qr_id qr_id db = Some q ->
  (QRCode.is_expired now q = true ->
   run (scan_qrcode now qr_id u amt) db fs
   = (Raise (TransactionNotFoundException "QR code has expired or is invalid"),
      db)
   /\ http_response
        (TransactionNotFoundException "QR code has expired or is invalid")
      = Some (400, "QR code has expired or is invalid"))
  /\ (QRCode.is_expired now q = false ->
      forall k,
        qrcode.max_use_count q = Some k ->
        k <= QRCode.current_use_count q db ->
        run (scan_qrcode now qr_id u amt) db fs
        = (Raise (TransactionNotFoundException
                    "QR code has reached its maximum usage limit"), db)
        /\ http_response
             (TransactionNotFoundException
                "QR code has reached its maximum usage limit")
           = Some (400, "QR code has reached its maximum usage limit")).
Proof.
  intros Hq. split.
  - intros Hx. split; [|reflexivity].
    unfold scan_qrcode. msimpl. rewrite Hq. msimpl. rewrite Hx. reflexivity.
  - intros Hx k Hk Hc. split; [|reflexivity].
    unfold scan_qrcode. msimpl. rewrite Hq. msimpl. rewrite Hx. msimpl.
    rewrite Hk. msimpl.
    destruct (QRCode.current_use_count q db >=? k) eqn:E; msimpl;
      [reflexivity|].
    bools. lia.
Qed.

Lemma unusable_voucher_answers_witness :
  run (scan_qrcode 168000021 "token-req" carol None) db_request_used []
  = (Raise (TransactionNotFoundException "QR code has expired or is invalid"),
     db_request_used)
  /\ run (scan_qrcode 40 "token-req" carol None) db_request_used []
     = (Raise (TransactionNotFoundException
                 "QR code has reached its maximum usage limit"),
        db_request_used).
Proof.
  split.
  - apply (proj1 (unusable_voucher_answers 168000021 "token-req" carol None
                    db_request_used [] request_voucher eq_refl)).
    reflexivity.
  - apply (proj2 (unusable_voucher_answers 40 "token-req" carol None
                    db_request_used [] request_voucher eq_refl)
             eq_refl 1 eq_refl).
    vm_compute. discriminate.
Defined.

(** A send voucher that is not expired is shown, whatever its use count:
    [can_be_used] looks at the expiry only. *)
Lemma view_ignores_use_count now qr_id u db fs q :
  QRCode.get_by_qr_id qr_id db = Some q ->
  QRCode.is_expired now q = false ->
  run (get_qrcode_by_uuid now qr_id u) db fs
  = (Return (QRCodeResponse.Build (qrcode.qr_id q)
               (QRType_value (qrcode.qr_type q))
               (qrcode.amount q) (qrcode.expire q)), db).
Proof.
  intros Hq Hx. unfold get_qrcode_by_uuid, QRCode.can_be_used. msimpl.
  rewrite Hq. msimpl. rewrite Hx. cbn [negb]. rewrite andb_false_r.
  reflexivity.
Qed.

(** C10.  Alice's send voucher has been redeemed once, which is its
    [max_use_count], and is not expired: the public view returns it all the
    same, while a redemption at the same instant is refused as used up. *)
Theorem exhausted_send_voucher_is_shown :
  QRCode.get_by_qr_id "token-send" db_send_used = Some send_voucher
  /\ qrcode.qr_type send_voucher = SEND_PAYMENT
  /\ QRCode.is_expired 102 send_voucher = false
  /\ qrcode.max_use_count send_voucher = Some 1
  /\ QRCode.current_use_count send_voucher db_send_used = 1
  /\ run (get_qrcode_by_uuid 102 "token-send" carol) db_send_used []
     = (Return (QRCodeResponse.Build "token-send" "send_payment" None
                  (Some 60000100)), db_send_used)
  /\ run (scan_qrcode 102 "token-send" carol (Some 100)) db_send_used []
     = (Raise (TransactionNotFoundException
                 "QR code has reached its maximum usage limit"), db_send_used).
Proof.
  repeat split; reflexivity.
Qed.

(* ------------------------------------------------------------------ *)
(** ** The primary key of [qrcode] along a run *)

(** Deleting rows keeps the keys distinct. *)
Lemma pk_after_delete (keep : QRCode -> bool) (rows : list QRCode) :
  NoDup (map qrcode.id rows) -> NoDup (map qrcode.id (filter keep rows)).
Proof.
  induction rows as [|q rows IH]; cbn [map filter]; intros H; [constructor|].
  inversion H as [|? ? Hq Hrows]; subst.
  destruct (keep q); cbn [map]; [|now apply IH].
  constructor; [|now apply IH].
  intros Hin. apply Hq. apply in_map_iff in Hin.
  destruct Hin as (y & Hy & Hin). apply filter_In in Hin.
  rewrite <- Hy. apply in_map. tauto.
Qed.

(** A row with a new key keeps the keys distinct. *)
Lemma pk_after_insert (rows : list QRCode) (row : QRCode) :
  NoDup (map qrcode.id rows) ->
  ~ In (qrcode.id row) (map qrcode.id rows) ->
  NoDup (map qrcode.id (rows ++ [row])).
Proof.
  induction rows as [|y rows IH]; cbn [map app]; intros Hnd Hnew.
  - constructor; [tauto | constructor].
  - inversion Hnd as [|? ? Hy Hrows]; subst. constructor.
    + rewrite map_app, in_app_iff. cbn [map In]. intros [H | [H | []]].
      * now apply Hy.
      * apply Hnew. left. now symmetry.
    + apply IH; [exact Hrows|]. intros H. apply Hnew. now right.
Qed.

Lemma qrcode_wf_insert (db : DB) (row : QRCode) :
  qrcode_wf db ->
  qrcode.id row = qrcode_seq db ->
  qrcode_wf (insert_qrcode db row).
Proof.
  intros [Hpk Hlt] Hid. unfold qrcode_wf, qrcode_pk, insert_qrcode.
  cbn [qrcode_table qrcode_seq]. split.
  - apply pk_after_insert; [exact Hpk|].
    intros Hin. apply in_map_iff in Hin. destruct Hin as (y & Hy & Hin).
    rewrite Forall_forall in Hlt. specialize (Hlt y Hin). lia.
  - apply Forall_app. split.
    + eapply Forall_impl; [|exact Hlt]. cbn beta. intros; lia.
    + constructor; [lia | constructor].
Qed.

Lemma qrcode_wf_pruned (db : DB) : qrcode_wf db -> qrcode_wf (pruned db).
Proof.
  intros [Hpk Hlt]. unfold qrcode_wf, qrcode_pk, pruned, set_qrcode_table.
  cbn [qrcode_table qrcode_seq]. split.
  - now apply pk_after_delete.
  - rewrite Forall_forall in *. intros q Hq. apply filter_In in Hq.
    apply Hlt. tauto.
Qed.

Lemma qrcode_wf_insert_transaction (db : DB) (row : Transaction) :
  qrcode_wf db -> qrcode_wf (insert_transaction db row).
Proof. intros H. exact H. Qed.

Lemma serve_keeps_qrcode_wf rq db : qrcode_wf db -> qrcode_wf (serve rq db).
Proof.
  destruct rq as [r fs]. intros H. destruct r; cbn [serve].
  - destruct (topup_outcome now payment current_user db fs)
      as [(resp & row & E & _) | E]; rewrite E; exact H.
  - destruct (withdraw_outcome now payment current_user db fs)
      as [(resp & row & E & _) | (e & E)]; rewrite E; exact H.
  - destruct (transfer_outcome now payment current_user db fs)
      as [(resp & r & debit & credit & E & _) | (e & E)]; rewrite E; exact H.
  - destruct (qrcode_request_outcome settings now uuid4 origin collect
                current_user db fs)
      as [(resp & row & E & Hid & _) | (e & E)]; rewrite E; cbn [snd];
      [now apply qrcode_wf_insert | exact H].
  - destruct (qrcode_send_outcome now uuid4 origin current_user db fs)
      as [(resp & E) | [(e & E) | (e & E)]]; rewrite E; cbn [snd].
    + apply qrcode_wf_insert; [now apply qrcode_wf_pruned | reflexivity].
    + exact H.
    + now apply qrcode_wf_pruned.
  - destruct (scan_qrcode_outcome now qr_id current_user amount db fs)
      as [(resp & q & owner & k & a & debit & credit & E & _) | (e & E)];
      rewrite E; exact H.
  - now rewrite get_qrcode_by_uuid_reads.
Qed.

(** Every store reached from one whose voucher keys are well formed has
    distinct voucher keys. *)
Lemma serve_all_keeps_qrcode_pk rqs :
  forall db, qrcode_wf db -> qrcode_pk (serve_all rqs db).
Proof.
  induction rqs as [|rq rest IH]; intros db H; cbn [serve_all].
  - exact (proj1 H).
  - apply IH. now apply serve_keeps_qrcode_wf.
Qed.

Lemma qrcode_wf_db0 : qrcode_wf db0.
Proof. split; constructor. Qed.

(* ------------------------------------------------------------------ *)
(** ** The scenarios of the specification *)

(** Fresh account, top-up of 100.00. *)
Example scenario_topup :
  run (topup 10 (PaymentRequest.Build 10000) alice) db0 []
  = (Return (Some (PaymentResponse.Build "Top-up processed successfully"
                     "100.00" "100.00" (Some 1) 10)), db1)
  /\ List.length (transaction_table db1) = 1%nat.
Proof. split; reflexivity. Qed.

(** Balance 100.00, withdrawal of 150.00: refused, and the balance is
    unchanged; the error of the refusal is lost in the [except] clause. *)
Example scenario_withdraw_too_much :
  run (withdraw 11 (PaymentRequest.Build 15000) alice) db1 []
  = (Raise MissingGreenlet, db1).
Proof. reflexivity. Qed.

(** Alice (100.00) transfers 50.00 to Bob (0.00). *)
Example scenario_transfer :
  let db' :=
    after (transfer 11 (TransferRequest.Build 5000 "bob" EmptyString) alice) db1
  in
  format_money (User.total_balance alice db') = "50.00"
  /\ format_money (User.total_balance bob db') = "50.00"
  /\ map transaction.reference_user_id (skipn 1 (transaction_table db'))
     = [Some 2; Some 1].
Proof. repeat split; reflexivity. Qed.

(** The commit of the transfer is refused: neither entry exists. *)
Example scenario_transfer_commit_refused :
  run (transfer 11 (TransferRequest.Build 5000 "bob" EmptyString) alice)
      db1 [true]
  = (Raise DBAPIError, db1).
Proof. reflexivity. Qed.

(** A request voucher of 20.00 for one use: Alice pays it, Carol cannot. *)
Example scenario_request_voucher :
  format_money (User.total_balance bob db_request_used) = "20.00"
  /\ format_money (User.total_balance alice db_request_used) = "80.00"
  /\ fst (run (scan_qrcode 40 "token-req" carol None) db_request_used [])
     = Raise (TransactionNotFoundException
                "QR code has reached its maximum usage limit").
Proof. repeat split; reflexivity. Qed.

(** A send voucher: Bob draws 30.00 from Alice, once. *)
Example scenario_send_voucher :
  format_money (User.total_balance alice db_send_used) = "70.00"
  /\ format_money (User.total_balance bob db_send_used) = "30.00"
  /\ fst (run (scan_qrcode 102 "token-send" bob (Some 3000)) db_send_used [])
     = Raise (TransactionNotFoundException
                "QR code has reached its maximum usage limit").
Proof. repeat split; reflexivity. Qed.

(* ------------------------------------------------------------------ *)
(** ** When the writing routes commit *)

Lemma total_balance_other_row (v : User) (db : DB) (r : Transaction) :
  transaction.user_id r <> user.id v ->
  User.total_balance v (insert_transaction db r) = User.total_balance v db.
Proof.
  intros H. rewrite total_balance_insert.
  apply Z.eqb_neq in H. rewrite H. lia.
Qed.

(** X1.  A top-up commits exactly when its amount is positive and the store
    accepts the commit.  It then adds one entry of kind TOPUP without
    voucher, raises the balance of the caller by the amount, leaves the
    other balances alone and reports the new balance.  In every other case
    nothing is written and the caller gets [MissingGreenlet], raised by the
    log line of the [except] clause after the rollback; the route never
    returns [None]. *)
Theorem topup_commits_exactly_when now p u db fs :
  match run (topup now p u) db fs with
  | (Return (Some resp), db') =>
      0 < PaymentRequest.amount p
      /\ commit_accepted fs = true
      /\ (exists row,
             transaction_table db' = transaction_table db ++ [row]
             /\ transaction.transaction_type row = TOPUP
             /\ transaction.qr_id row = None
             /\ PaymentResponse.transaction_id resp = Some (transaction.id row))
      /\ User.total_balance u db'
         = User.total_balance u db + PaymentRequest.amount p
      /\ PaymentResponse.new_balance resp
         = format_money (User.total_balance u db + PaymentRequest.amount p)
      /\ (forall v, user.id v <> user.id u ->
                    User.total_balance v db' = User.total_balance v db)
  | (Return None, _) => False
  | (Raise e, db') =>
      db' = db
      /\ e = MissingGreenlet
      /\ (PaymentRequest.amount p <= 0 \/ commit_accepted fs = false)
  end.
Proof.
  unfold topup. msimpl.
  destruct (PaymentRequest.amount p <=? 0) eqn:Ha; msimpl; bools.
  { repeat split. now left. }
  assert (Hbal : forall row,
             transaction.user_id row = user.id u ->
             transaction.amount row = PaymentRequest.amount p ->
             User.total_balance u (insert_transaction db row)
             = User.total_balance u db + PaymentRequest.amount p).
  { intros row H1 H2. now rewrite total_balance_insert, H1, H2, Z.eqb_refl. }
  destruct fs as [|[|] fs]; msimpl; cbn [commit_accepted].
  - repeat split; try assumption.
    + eexists. repeat split.
    + now apply Hbal.
    + now rewrite Hbal.
    + intros v Hv. apply total_balance_other_row. cbn. congruence.
  - repeat split. now right.
  - repeat split; try assumption.
    + eexists. repeat split.
    + now apply Hbal.
    + now rewrite Hbal.
    + intros v Hv. apply total_balance_other_row. cbn. congruence.
Qed.

(** X2.  A withdrawal commits exactly when its amount is positive, the
    balance covers it and the store accepts the commit; a withdrawal of the
    whole balance is allowed.  It then adds one entry of kind WITHDRAWAL of
    minus the amount and reports the balance less the amount.  Otherwise
    the store stays as it was, and the error the route raised, for the
    amount, for the balance or for the commit, is lost: the [except] clause
    rolls back before it logs, and the caller gets [MissingGreenlet]. *)
Theorem withdraw_commits_exactly_when now p u db fs :
  match run (withdraw now p u) db fs with
  | (Return resp, db') =>
      0 < PaymentRequest.amount p
      /\ PaymentRequest.amount p <= User.total_balance u db
      /\ commit_accepted fs = true
      /\ (exists row,
             transaction_table db' = transaction_table db ++ [row]
             /\ transaction.transaction_type row = WITHDRAWAL
             /\ transaction.amount row = - PaymentRequest.amount p)
      /\ PaymentResponse.new_balance resp
         = format_money (User.total_balance u db - PaymentRequest.amount p)
      /\ (forall v, user.id v <> user.id u ->
                    User.total_balance v db' = User.total_balance v db)
  | (Raise e, db') =>
      db' = db
      /\ e = MissingGreenlet
      /\ (PaymentRequest.amount p <= 0
          \/ User.total_balance u db < PaymentRequest.amount p
          \/ commit_accepted fs = false)
  end.
Proof.
  unfold withdraw. msimpl.
  destruct (PaymentRequest.amount p <=? 0) eqn:Ha; msimpl; bools.
  { repeat split. now left. }
  destruct (User.total_balance u db <=? 0) eqn:Hz; msimpl; bools.
  { repeat split. right; left; lia. }
  destruct (PaymentRequest.amount p >? User.total_balance u db) eqn:Hb;
    msimpl; bools.
  { repeat split. right; left; lia. }
  assert (Hbal : forall row,
             transaction.user_id row = user.id u ->
             transaction.amount row = - PaymentRequest.amount p ->
             User.total_balance u (insert_transaction db row)
             = User.total_balance u db - PaymentRequest.amount p).
  { intros row H1 H2. rewrite total_balance_insert, H1, H2, Z.eqb_refl. lia. }
  destruct fs as [|[|] fs]; msimpl; cbn [commit_accepted].
  - repeat split; try assumption.
    + eexists. repeat split.
    + now rewrite Hbal.
    + intros v Hv. apply total_balance_other_row. cbn. congruence.
  - repeat split. right; right; reflexivity.
  - repeat split; try assumption.
    + eexists. repeat split.
    + now rewrite Hbal.
    + intros v Hv. apply total_balance_other_row. cbn. congruence.
Qed.

Lemma payment_credits_payee a payer payee v debit credit db :
  payment_rows a payer payee v debit credit ->
  payee <> payer ->
  ledger_sum payee
    (transaction_table (insert_transaction (insert_transaction db debit) credit))
  = ledger_sum payee (transaction_table db) + a.
Proof.
  intros (H1 & H2 & _ & H3 & H4 & _) Hne.
  rewrite ledger_sum_two_rows, H1, H2, H3, H4, Z.eqb_refl.
  destruct (payer =? payee) eqn:E; bools; [congruence | lia].
Qed.

Lemma payment_spares_others i a payer payee v debit credit db :
  payment_rows a payer payee v debit credit ->
  i <> payer -> i <> payee ->
  ledger_sum i
    (transaction_table (insert_transaction (insert_transaction db debit) credit))
  = ledger_sum i (transaction_table db).
Proof.
  intros (H1 & H2 & _ & H3 & H4 & _) Hp Hq.
  rewrite ledger_sum_two_rows, H1, H3.
  destruct (payer =? i) eqn:E1; destruct (payee =? i) eqn:E2; bools;
    try congruence; lia.
Qed.

Lemma ledger_total_insert (db : DB) (r : Transaction) :
  ledger_total (insert_transaction db r)
  = ledger_total db + transaction.amount r.
Proof.
  unfold ledger_total, insert_transaction. cbn [transaction_table].
  rewrite map_app, sum_app. cbn [map fold_right]. now rewrite Z.add_0_r.
Qed.

Lemma payment_conserves_total a payer payee v debit credit db :
  payment_rows a payer payee v debit credit ->
  ledger_total (insert_transaction (insert_transaction db debit) credit)
  = ledger_total db.
Proof.
  intros (_ & H2 & _ & _ & H4 & _).
  rewrite !ledger_total_insert, H2, H4. lia.
Qed.

(** X3.  A transfer commits exactly when the amount is positive, the
    recipient exists and is not the sender, the balance of the sender covers
    the amount and the store accepts the commit.  It then credits the
    recipient with exactly the amount, leaves every third account alone,
    cross-references the two entries and reports the balance of the sender.
    Otherwise it raises the error of the first check that fails, in this
    order: the amount, the unknown recipient, the transfer to oneself, the
    balance, the refused commit; and the store stays as it was. *)
Theorem transfer_commits_exactly_when now p u db fs :
  let a := TransferRequest.amount p in
  let name := TransferRequest.recipient_username p in
  match run (transfer now p u) db fs with
  | (Return resp, db') =>
      exists recipient debit credit,
        User.get_by_username name db = Some recipient
        /\ user.id recipient <> user.id u
        /\ 0 < a <= User.total_balance u db
        /\ commit_accepted fs = true
        /\ transaction_table db' = transaction_table db ++ [debit; credit]
        /\ transaction.transaction_type debit = TRANSFER_SENT
        /\ transaction.reference_user_id debit = Some (user.id recipient)
        /\ transaction.transaction_type credit = TRANSFER_RECEIVED
        /\ transaction.reference_user_id credit = Some (user.id u)
        /\ User.total_balance recipient db'
           = User.total_balance recipient db + a
        /\ PaymentResponse.new_balance resp
           = format_money (User.total_balance u db - a)
        /\ PaymentResponse.transaction_id resp = Some (transaction.id debit)
        /\ (forall v, user.id v <> user.id u ->
                      user.id v <> user.id recipient ->
                      User.total_balance v db' = User.total_balance v db)
  | (Raise e, db') =>
      db' = db
      /\ ((a <= 0
           /\ e = InvalidAmountException
                    "Transfer amount must be greater than zero")
          \/ (0 < a
              /\ User.get_by_username name db = None
              /\ e = UserNotFoundException ("User '" +++ name +++ "' not found"))
          \/ (0 < a
              /\ (exists r, User.get_by_username name db = Some r
                            /\ user.id r = user.id u)
              /\ e = SelfTransferDisallowed)
          \/ (0 < a
              /\ (exists r, User.get_by_username name db = Some r
                            /\ user.id r <> user.id u)
              /\ User.total_balance u db < a
              /\ e = InsufficientBalanceException
                       ("Transfer amount $" +++ format_money a
                          +++ " exceeds available balance $"
                          +++ format_money (User.total_balance u db)))
          \/ (0 < a <= User.total_balance u db
              /\ (exists r, User.get_by_username name db = Some r
                            /\ user.id r <> user.id u)
              /\ commit_accepted fs = false
              /\ e = DBAPIError))
  end.
Proof.
  cbv zeta. unfold transfer. msimpl.
  destruct (TransferRequest.amount p <=? 0) eqn:Ha; msimpl; bools.
  { split; [reflexivity | left; auto]. }
  destruct (User.get_by_username _ db) as [r|] eqn:Hr; msimpl.
  2:{ split; [reflexivity | right; left; auto]. }
  destruct (user.id r =? user.id u) eqn:Hs; msimpl; bools.
  { split; [reflexivity | right; right; left; eauto 6]. }
  destruct (TransferRequest.amount p >? User.total_balance u db) eqn:Hb;
    msimpl; bools.
  { split; [reflexivity | right; right; right; left].
    split; [lia | split; [eauto | split; [lia | reflexivity]]]. }
  destruct fs as [|[|] fs]; msimpl; cbn [commit_accepted].
  2:{ split; [reflexivity | right; right; right; right].
      split; [lia | split; [eauto | auto]]. }
  all: match goal with
       | |- context [insert_transaction (insert_transaction _ ?d) ?c] =>
           assert (Hrows : payment_rows (TransferRequest.amount p) (user.id u)
                             (user.id r) None d c)
             by (repeat split);
           exists r, d, c
       end.
  all: rewrite insert_two_rows.
  all: repeat match goal with |- _ /\ _ => split end; try reflexivity;
         try assumption; try lia.
  all: try (rewrite !total_balance_ledger_sum;
            first [ now rewrite (payment_credits_payee _ _ _ _ _ _ _ Hrows Hs)
                  | now rewrite (payment_debits_payer _ _ _ _ _ _ _ Hrows Hs) ]).
  all: intros v Hv1 Hv2; rewrite !total_balance_ledger_sum;
         now rewrite (payment_spares_others _ _ _ _ _ _ _ _ Hrows Hv1 Hv2).
Qed.

(** What a redemption that returns has done. *)
Lemma scan_qrcode_return now qr_id u amt db fs resp db' :
  run (scan_qrcode now qr_id u amt) db fs = (Return resp, db') ->
  exists q a payer payee debit credit,
    redeemable now qr_id u amt db q a payer payee
    /\ commit_accepted fs = true
    /\ db' = insert_transaction (insert_transaction db debit) credit
    /\ payment_rows a (user.id payer) (user.id payee)
                    (Some (qrcode.id q)) debit credit
    /\ transaction.transaction_type debit = QR_PAYMENT
    /\ transaction.transaction_type credit = QR_PAYMENT
    /\ transaction.reference_user_id debit = Some (user.id payee)
    /\ transaction.reference_user_id credit = Some (user.id payer)
    /\ PaymentResponse.amount resp = format_money a
    /\ PaymentResponse.new_balance resp
       = format_money (User.total_balance u db').
Proof.
  unfold scan_qrcode. msimpl.
  destruct (QRCode.get_by_qr_id qr_id db) as [q|] eqn:Hq; msimpl;
    [|discriminate].
  destruct (QRCode.is_expired now q) eqn:Hx; msimpl; [discriminate|].
  destruct (qrcode.max_use_count q) as [k|] eqn:Hk; msimpl; [|discriminate].
  destruct (QRCode.current_use_count q db >=? k) eqn:Hc; msimpl;
    [discriminate|].
  destruct (qrcode.qr_type q) eqn:Ht; msimpl.
  - destruct (qrcode.amount q) as [a|] eqn:Ha; msimpl; [|discriminate].
    destruct (a <=? 0) eqn:Hp; msimpl; [discriminate|].
    destruct (QRCode.user q db) as [owner|] eqn:Ho; msimpl; [|discriminate].
    destruct (user.id owner =? user.id u) eqn:Hs; msimpl; [discriminate|].
    destruct (a >? User.total_balance u db) eqn:Hb; msimpl; [discriminate|].
    bools.
    destruct fs as [|[|] fs]; msimpl; [|discriminate|];
      intros H; injection H as <- <-;
      exists q, a, u, owner; eexists _, _;
      unfold redeemable, payment_rows; rewrite Hq, Ht, Ho;
      repeat match goal with |- _ /\ _ => split end;
      try reflexivity; try assumption; eauto;
      exists owner; repeat split; auto; congruence.
  - destruct amt as [a|] eqn:Ha; msimpl; [|discriminate].
    destruct (a <=? 0) eqn:Hp; msimpl; [discriminate|].
    destruct (QRCode.user q db) as [owner|] eqn:Ho; msimpl; [|discriminate].
    destruct (user.id u =? user.id owner) eqn:Hs; msimpl; [discriminate|].
    destruct (a >? User.total_balance owner db) eqn:Hb; msimpl;
      [discriminate|].
    bools.
    destruct fs as [|[|] fs]; msimpl; [|discriminate|];
      intros H; injection H as <- <-;
      exists q, a, owner, u; eexists _, _;
      unfold redeemable, payment_rows; rewrite Hq, Ht, Ho;
      repeat match goal with |- _ /\ _ => split end;
      try reflexivity; try assumption; eauto;
      exists owner; repeat split; auto; congruence.
Qed.

(** A redemption whose conditions hold and whose commit is accepted
    returns. *)
Lemma scan_qrcode_redeems now qr_id u amt db fs q a payer payee :
  redeemable now qr_id u amt db q a payer payee ->
  commit_accepted fs = true ->
  exists resp db', run (scan_qrcode now qr_id u amt) db fs = (Return resp, db').
Proof.
  intros (Hq & Hx & (k & Hk & Hc) & Ha & (owner & Ho & Hne & Hty) & Hb) Hfs.
  unfold scan_qrcode. msimpl. rewrite Hq. msimpl. rewrite Hx. msimpl.
  rewrite Hk. msimpl.
  assert (Hc' : (QRCode.current_use_count q db >=? k) = false).
  { rewrite Z.geb_leb. apply Z.leb_gt. lia. }
  rewrite Hc'. msimpl.
  assert (Ha' : (a <=? 0) = false) by (apply Z.leb_gt; lia).
  assert (Hb' : (a >? User.total_balance payer db) = false).
  { rewrite Z.gtb_ltb. apply Z.ltb_ge. lia. }
  destruct (qrcode.qr_type q).
  - destruct Hty as (Hamt & -> & ->). rewrite Hamt. msimpl. rewrite Ha'.
    msimpl. rewrite Ho. msimpl.
    apply Z.eqb_neq in Hne. rewrite Hne. msimpl. rewrite Hb'. msimpl.
    destruct fs as [|[|] fs]; [|discriminate|]; msimpl; eauto.
  - destruct Hty as (Hamt & -> & ->). rewrite Hamt. msimpl. rewrite Ha'.
    msimpl. rewrite Ho. msimpl.
    assert (Hne' : (user.id u =? user.id owner) = false).
    { apply Z.eqb_neq. congruence. }
    rewrite Hne'. msimpl. rewrite Hb'. msimpl.
    destruct fs as [|[|] fs]; [|discriminate|]; msimpl; eauto.
Qed.

(** X4.  A redemption returns exactly when the token names a voucher that
    is not expired and not used up, the amount (the voucher's for a request
    voucher, the caller's for a send voucher) is positive, the owner is a
    registered user other than the caller, the payer (the caller for a
    request voucher, the owner for a send voucher) has the amount, and the
    store accepts the commit. *)
Theorem scan_qrcode_commits_exactly_when now qr_id u amt db fs :
  (exists resp db',
      run (scan_qrcode now qr_id u amt) db fs = (Return resp, db'))
  <-> (exists q a payer payee,
          redeemable now qr_id u amt db q a payer payee
          /\ commit_accepted fs = true).
Proof.
  split.
  - intros (resp & db' & E).
    destruct (scan_qrcode_return _ _ _ _ _ _ _ _ E)
      as (q & a & payer & payee & _ & _ & Hr & Hfs & _).
    eauto 6.
  - intros (q & a & payer & payee & Hr & Hfs).
    eapply scan_qrcode_redeems; eauto.
Qed.

Lemma scan_qrcode_commits_exactly_when_witness :
  exists resp db',
    run (scan_qrcode 30 "token-req" alice None) db_request [] = (Return resp, db').
Proof.
  apply (proj2 (scan_qrcode_commits_exactly_when
                  30 "token-req" alice None db_request [])).
  exists request_voucher, 2000, alice, bob.
  split; [|reflexivity].
  unfold redeemable. repeat split; try reflexivity.
  - exists 1. split; [reflexivity | vm_compute; reflexivity].
  - exists bob. repeat split; try reflexivity. discriminate.
  - vm_compute. discriminate.
Defined.

(** X5.  A redemption that returns has moved exactly the amount from the
    payer to the payee: two entries of kind QR_PAYMENT that carry the key of
    the voucher and name each other's account, the payee richer by the
    amount, every third account untouched.  The balance it reports is the
    caller's: lower by the amount for a request voucher, higher by the
    amount for a send voucher. *)
Theorem redemption_moves_the_amount now qr_id u amt db fs :
  match run (scan_qrcode now qr_id u amt) db fs with
  | (Return resp, db') =>
      exists q a payer payee debit credit,
        redeemable now qr_id u amt db q a payer payee
        /\ transaction_table db' = transaction_table db ++ [debit; credit]
        /\ payment_rows a (user.id payer) (user.id payee)
                        (Some (qrcode.id q)) debit credit
        /\ transaction.transaction_type debit = QR_PAYMENT
        /\ transaction.transaction_type credit = QR_PAYMENT
        /\ transaction.reference_user_id debit = Some (user.id payee)
        /\ transaction.reference_user_id credit = Some (user.id payer)
        /\ User.total_balance payer db' = User.total_balance payer db - a
        /\ User.total_balance payee db' = User.total_balance payee db + a
        /\ (forall v, user.id v <> user.id payer ->
                      user.id v <> user.id payee ->
                      User.total_balance v db' = User.total_balance v db)
        /\ PaymentResponse.amount resp = format_money a
        /\ PaymentResponse.new_balance resp
           = format_money
               (User.total_balance u db
                + match qrcode.qr_type q with
                  | REQUEST_PAYMENT => - a
                  | SEND_PAYMENT => a
                  end)
  | (Raise _, db') => db' = db
  end.
Proof.
  destruct (run (scan_qrcode now qr_id u amt) db fs) as [[resp | e] db'] eqn:E.
  2:{ destruct (scan_qrcode_outcome now qr_id u amt db fs)
        as [(r & q & o & k & a & d & c & E' & _) | (e' & E')];
        rewrite E' in E; [discriminate | now injection E as _ <-]. }
  destruct (scan_qrcode_return _ _ _ _ _ _ _ _ E)
    as (q & a & payer & payee & debit & credit & Hr & _ & -> & Hrows
        & Hd & Hc & Hrd & Hrc & Hamt & Hnew).
  exists q, a, payer, payee, debit, credit.
  pose proof Hr as (_ & _ & _ & _ & (owner & _ & Hne & Hty) & _).
  assert (Hpp : user.id payee <> user.id payer).
  { destruct (qrcode.qr_type q); destruct Hty as (_ & -> & ->); congruence. }
  assert (Hpayer : User.total_balance payer
                     (insert_transaction (insert_transaction db debit) credit)
                   = User.total_balance payer db - a).
  { rewrite !total_balance_ledger_sum. eapply payment_debits_payer; eauto. }
  assert (Hpayee : User.total_balance payee
                     (insert_transaction (insert_transaction db debit) credit)
                   = User.total_balance payee db + a).
  { rewrite !total_balance_ledger_sum. eapply payment_credits_payee; eauto. }
  repeat match goal with |- _ /\ _ => split end; try assumption.
  - apply insert_two_rows.
  - intros v H1 H2. rewrite !total_balance_ledger_sum.
    eapply payment_spares_others; eauto.
  - rewrite Hnew. f_equal.
    destruct (qrcode.qr_type q); destruct Hty as (_ & -> & ->);
      [rewrite Hpayer | rewrite Hpayee]; lia.
Qed.

(* ------------------------------------------------------------------ *)
(** ** Every request as steps of the store *)

(** The keys of the two rows of a redemption. *)
Lemma scan_qrcode_keys now qr_id u amt db fs resp db' :
  run (scan_qrcode now qr_id u amt) db fs = (Return resp, db') ->
  exists debit credit,
    db' = insert_transaction (insert_transaction db debit) credit
    /\ transaction.id debit = transaction_seq db
    /\ transaction.id credit = transaction_seq db + 1.
Proof.
  unfold scan_qrcode. msimpl.
  destruct (QRCode.get_by_qr_id qr_id db) as [q|]; msimpl; [|discriminate].
  destruct (QRCode.is_expired now q); msimpl; [discriminate|].
  destruct (qrcode.max_use_count q) as [k|]; msimpl; [|discriminate].
  destruct (QRCode.current_use_count q db >=? k); msimpl; [discriminate|].
  destruct (qrcode.qr_type q); msimpl.
  - destruct (qrcode.amount q) as [a|]; msimpl; [|discriminate].
    destruct (a <=? 0); msimpl; [discriminate|].
    destruct (QRCode.user q db) as [owner|]; msimpl; [|discriminate].
    destruct (user.id owner =? user.id u); msimpl; [discriminate|].
    destruct (a >? User.total_balance u db); msimpl; [discriminate|].
    destruct fs as [|[|] fs]; msimpl; [|discriminate|];
      intros H; injection H as <- <-; eexists _, _; repeat split.
  - destruct amt as [a|]; msimpl; [|discriminate].
    destruct (a <=? 0); msimpl; [discriminate|].
    destruct (QRCode.user q db) as [owner|]; msimpl; [|discriminate].
    destruct (user.id u =? user.id owner); msimpl; [discriminate|].
    destruct (a >? User.total_balance owner db); msimpl; [discriminate|].
    destruct fs as [|[|] fs]; msimpl; [|discriminate|];
      intros H; injection H as <- <-; eexists _, _; repeat split.
Qed.

Lemma insert_two_rows_inj db d1 c1 d2 c2 :
  insert_transaction (insert_transaction db d1) c1
  = insert_transaction (insert_transaction db d2) c2 ->
  d1 = d2 /\ c1 = c2.
Proof.
  intros H. apply (f_equal transaction_table) in H.
  rewrite !insert_two_rows in H. apply app_inv_head in H.
  now injection H.
Qed.

Lemma topup_is_a_step now p u db fs :
  store_step db (snd (run (topup now p u) db fs)).
Proof.
  unfold topup. msimpl.
  destruct (PaymentRequest.amount p <=? 0); msimpl; [constructor|].
  destruct fs as [|[|] fs]; msimpl;
    first [apply step_none | now apply step_entry].
Qed.

Lemma withdraw_is_a_step now p u db fs :
  store_step db (snd (run (withdraw now p u) db fs)).
Proof.
  unfold withdraw. msimpl.
  destruct (PaymentRequest.amount p <=? 0); msimpl; [constructor|].
  destruct (User.total_balance u db <=? 0); msimpl; [constructor|].
  destruct (PaymentRequest.amount p >? User.total_balance u db); msimpl;
    [constructor|].
  destruct fs as [|[|] fs]; msimpl;
    first [apply step_none | now apply step_entry].
Qed.

Lemma transfer_is_a_step now p u db fs :
  store_step db (snd (run (transfer now p u) db fs)).
Proof.
  unfold transfer. msimpl.
  destruct (TransferRequest.amount p <=? 0); msimpl; [constructor|].
  destruct (User.get_by_username _ db) as [r|]; msimpl; [|constructor].
  destruct (user.id r =? user.id u); msimpl; [constructor|].
  destruct (TransferRequest.amount p >? User.total_balance u db); msimpl;
    [constructor|].
  destruct fs as [|[|] fs]; msimpl;
    first [ apply step_none
          | eapply step_transfer; [repeat split | reflexivity | reflexivity] ].
Qed.

Lemma scan_qrcode_is_a_step now qr_id u amt db fs :
  store_step db (snd (run (scan_qrcode now qr_id u amt) db fs)).
Proof.
  destruct (run (scan_qrcode now qr_id u amt) db fs) as [[resp | e] db'] eqn:E.
  2:{ destruct (scan_qrcode_outcome now qr_id u amt db fs)
        as [(r & q & o & k & a & d & c & E' & _) | (e' & E')];
        rewrite E' in E; [discriminate|].
      injection E as _ <-. constructor. }
  cbn [snd].
  destruct (scan_qrcode_keys _ _ _ _ _ _ _ _ E)
    as (debit & credit & Hdb & Hk1 & Hk2).
  destruct (scan_qrcode_return _ _ _ _ _ _ _ _ E)
    as (q & a & payer & payee & debit' & credit' & Hr & _ & Hdb' & Hrows & _).
  rewrite Hdb in Hdb'. apply insert_two_rows_inj in Hdb'.
  destruct Hdb' as [<- <-]. subst db'.
  destruct Hr as (Hq & _ & (k & Hk & Hc) & _ & (owner & Ho & Hne & Hty) & _).
  apply find_some in Hq. destruct Hq as [Hin _].
  pose proof (QRCode_user_id q owner db Ho) as Hid.
  eapply step_redeem; eauto.
  destruct (qrcode.qr_type q); destruct Hty as (_ & -> & ->);
    [right | left]; split; congruence.
Qed.

Lemma qrcode_request_is_a_step st now uuid4 origin c u db fs :
  store_step db (snd (run (qrcode_request st now uuid4 origin c u) db fs)).
Proof.
  destruct (qrcode_request_outcome st now uuid4 origin c u db fs)
    as [(resp & row & E & Hid & Hk) | (e & E)]; rewrite E; cbn [snd].
  - eapply step_issue; eauto.
  - constructor.
Qed.

(** Every request changes the committed store by at most two steps. *)
Lemma serve_in_two_steps rq db :
  exists mid, store_step db mid /\ store_step mid (serve rq db).
Proof.
  destruct rq as [r fs]. destruct r; cbn [serve].
  - exists db. split; [constructor | apply topup_is_a_step].
  - exists db. split; [constructor | apply withdraw_is_a_step].
  - exists db. split; [constructor | apply transfer_is_a_step].
  - exists db. split; [constructor | apply qrcode_request_is_a_step].
  - destruct (qrcode_send_outcome now uuid4 origin current_user db fs)
      as [(resp & E) | [(e & E) | (e & E)]]; rewrite E; cbn [snd].
    + exists (pruned db). split; [constructor|].
      eapply step_issue; reflexivity.
    + exists db. split; constructor.
    + exists db. split; constructor.
  - exists db. split; [constructor | apply scan_qrcode_is_a_step].
  - exists db. rewrite get_qrcode_by_uuid_reads. split; constructor.
Qed.

(* ------------------------------------------------------------------ *)
(** ** The ledger along a run *)

Lemma step_extends_ledger db db' :
  store_step db db' ->
  user_table db' = user_table db
  /\ exists added, transaction_table db' = transaction_table db ++ added.
Proof.
  intros H. destruct H; (split; [reflexivity|]).
  - exists []. now rewrite app_nil_r.
  - exists [row]. reflexivity.
  - exists [debit; credit]. apply insert_two_rows.
  - exists [debit; credit]. apply insert_two_rows.
  - exists []. cbn. now rewrite app_nil_r.
  - exists []. cbn. now rewrite app_nil_r.
Qed.

Lemma serve_extends_ledger rq db :
  user_table (serve rq db) = user_table db
  /\ exists added, transaction_table (serve rq db) = transaction_table db ++ added.
Proof.
  destruct (serve_in_two_steps rq db) as (mid & H1 & H2).
  apply step_extends_ledger in H1. apply step_extends_ledger in H2.
  destruct H1 as (U1 & l1 & T1). destruct H2 as (U2 & l2 & T2).
  split; [congruence|].
  exists (l1 ++ l2). now rewrite T2, T1, app_assoc.
Qed.

(** X6.  The ledger is append-only and the routes never touch the users:
    after any sequence of requests the entries that were in the ledger are
    still there, unchanged and in their order, in front of the new ones. *)
Theorem ledger_is_append_only rqs :
  forall db,
    user_table (serve_all rqs db) = user_table db
    /\ exists added,
         transaction_table (serve_all rqs db) = transaction_table db ++ added.
Proof.
  induction rqs as [|rq rest IH]; intros db; cbn [serve_all].
  - split; [reflexivity|]. exists []. now rewrite app_nil_r.
  - destruct (IH (serve rq db)) as (U2 & l2 & T2).
    destruct (serve_extends_ledger rq db) as (U1 & l1 & T1).
    split; [congruence|].
    exists (l1 ++ l2). now rewrite T2, T1, app_assoc.
Qed.

Lemma serve_conserves_money r fs db :
  inside_the_system r = true ->
  ledger_total (serve (r, fs) db) = ledger_total db.
Proof.
  intros Hin. destruct r; try discriminate; cbn [serve].
  - destruct (transfer_outcome now payment current_user db fs)
      as [(resp & rc & debit & credit & E & _ & _ & _ & _ & Hrows) | (e & E)];
      rewrite E; cbn [snd]; [|reflexivity].
    eapply payment_conserves_total; eauto.
  - destruct (qrcode_request_outcome settings now uuid4 origin collect
                current_user db fs)
      as [(resp & row & E & _) | (e & E)]; rewrite E; reflexivity.
  - destruct (qrcode_send_outcome now uuid4 origin current_user db fs)
      as [(resp & E) | [(e & E) | (e & E)]]; rewrite E; reflexivity.
  - destruct (scan_qrcode_outcome now qr_id current_user amount db fs)
      as [(resp & q & owner & k & a & debit & credit & E & _ & _ & _ & _
           & _ & _ & _ & Hty) | (e & E)];
      rewrite E; cbn [snd]; [|reflexivity].
    destruct (qrcode.qr_type q); destruct Hty as (_ & _ & Hrows);
      eapply payment_conserves_total; eauto.
  - now rewrite get_qrcode_by_uuid_reads.
Qed.

(** X7.  Money is neither made nor lost inside the system: along any
    sequence of transfers, voucher issues, redemptions and look-ups,
    whatever each of them answers, the sum of all amounts of the ledger
    stays what it was.  Only top-ups and withdrawals change it. *)
Theorem payments_conserve_money rqs :
  forall db,
    Forall (fun rq => inside_the_system (fst rq) = true) rqs ->
    ledger_total (serve_all rqs db) = ledger_total db.
Proof.
  induction rqs as [|[r fs] rest IH]; intros db H; cbn [serve_all].
  - reflexivity.
  - inversion H as [|? ? Hr Hrest]; subst. cbn [fst] in Hr.
    rewrite IH by exact Hrest. now apply serve_conserves_money.
Qed.

Lemma payments_conserve_money_witness :
  ledger_total
    (serve_all
       [(Transfer 12 (TransferRequest.Build 4000 "bob" EmptyString) alice, []);
        (IssueSend 13 "token-w" None bob, []);
        (Scan 14 "token-w" carol (Some 1500), []);
        (Transfer 15 (TransferRequest.Build 9000 "carol" EmptyString) bob, [])]
       db1)
  = ledger_total db1.
Proof.
  apply payments_conserve_money. repeat constructor.
Defined.

(* ------------------------------------------------------------------ *)
(** ** Primary keys along a run *)

Lemma transaction_wf_insert (db : DB) (row : Transaction) :
  transaction_wf db ->
  transaction.id row = transaction_seq db ->
  transaction_wf (insert_transaction db row).
Proof.
  intros [Hpk Hlt] Hid. unfold transaction_wf, insert_transaction.
  cbn [transaction_table transaction_seq]. split.
  - rewrite map_app. cbn [map]. apply NoDup_app; repeat split.
    + exact Hpk.
    + constructor; [intros [] | constructor].
    + intros x Hx [Hx' | []]. apply in_map_iff in Hx.
      destruct Hx as (y & Hy & Hin).
      rewrite Forall_forall in Hlt. specialize (Hlt y Hin). lia.
  - apply Forall_app. split.
    + eapply Forall_impl; [|exact Hlt]. cbn beta. intros; lia.
    + constructor; [lia | constructor].
Qed.

Lemma transaction_wf_insert_two (db : DB) (debit credit : Transaction) :
  transaction_wf db ->
  transaction.id debit = transaction_seq db ->
  transaction.id credit = transaction_seq db + 1 ->
  transaction_wf (insert_transaction (insert_transaction db debit) credit).
Proof.
  intros H H1 H2. apply transaction_wf_insert;
    [now apply transaction_wf_insert | exact H2].
Qed.

Lemma step_keeps_keys db db' :
  store_step db db' ->
  transaction_wf db /\ qrcode_wf db ->
  transaction_wf db' /\ qrcode_wf db'.
Proof.
  intros H [Ht Hq]. destruct H.
  - now split.
  - split; [now apply transaction_wf_insert | exact Hq].
  - split; [now apply transaction_wf_insert_two | exact Hq].
  - split; [now apply transaction_wf_insert_two | exact Hq].
  - split; [exact Ht | now apply qrcode_wf_insert].
  - split; [exact Ht | now apply qrcode_wf_pruned].
Qed.

Lemma serve_all_keeps_keys rqs :
  forall db,
    transaction_wf db /\ qrcode_wf db ->
    transaction_wf (serve_all rqs db) /\ qrcode_wf (serve_all rqs db).
Proof.
  induction rqs as [|rq rest IH]; intros db H; cbn [serve_all]; [exact H|].
  apply IH. destruct (serve_in_two_steps rq db) as (mid & H1 & H2).
  eapply step_keeps_keys; [exact H2|]. eapply step_keeps_keys; eauto.
Qed.

(* ------------------------------------------------------------------ *)
(** ** The use count along a run *)

Lemma use_count_as_owner_uses (q : QRCode) (db : DB) :
  qrcode_pk db ->
  In q (qrcode_table db) ->
  QRCode.current_use_count q db = owner_uses q (transaction_table db).
Proof.
  intros Hpk Hin. unfold QRCode.current_use_count, QRCode.owner_subquery.
  rewrite (find_by_pk _ q Hpk Hin), py_or_zero. reflexivity.
Qed.

Lemma owner_uses_app (q : QRCode) (l1 l2 : list Transaction) :
  owner_uses q (l1 ++ l2) = owner_uses q l1 + owner_uses q l2.
Proof.
  unfold owner_uses. now rewrite filter_app, length_app, Nat2Z.inj_add.
Qed.

Lemma owner_uses_unrelated (q : QRCode) (rows : list Transaction) :
  Forall (fun r => transaction.qr_id r <> Some (qrcode.id q)) rows ->
  owner_uses q rows = 0.
Proof.
  intros H. unfold owner_uses.
  induction H as [|r rows Hr _ IH]; [reflexivity|].
  cbn [filter].
  assert (E : sql_eq_where (transaction.qr_id r) (qrcode.id q) = false).
  { destruct (transaction.qr_id r) as [i|]; [|reflexivity].
    cbn. apply Z.eqb_neq. congruence. }
  rewrite E. exact IH.
Qed.

Lemma same_key_same_voucher (rows : list QRCode) (q q' : QRCode) :
  NoDup (map qrcode.id rows) ->
  In q rows -> In q' rows ->
  qrcode.id q = qrcode.id q' ->
  q = q'.
Proof.
  intros Hpk Hq Hq' E.
  pose proof (find_by_pk rows q Hpk Hq) as F.
  pose proof (find_by_pk rows q' Hpk Hq') as F'.
  rewrite E in F. congruence.
Qed.

Lemma uses_after_rows (db db' : DB) (added : list Transaction) :
  qrcode_pk db ->
  qrcode_table db' = qrcode_table db ->
  transaction_table db' = transaction_table db ++ added ->
  forall q, In q (qrcode_table db) ->
            QRCode.current_use_count q db'
            = QRCode.current_use_count q db + owner_uses q added.
Proof.
  intros Hpk Hq Ht q Hin.
  rewrite (use_count_as_owner_uses q db Hpk Hin).
  rewrite (use_count_as_owner_uses q db').
  - now rewrite Ht, owner_uses_app.
  - unfold qrcode_pk. now rewrite Hq.
  - now rewrite Hq.
Qed.

Lemma step_keeps_voucher_invariant db db' :
  store_step db db' -> voucher_invariant db -> voucher_invariant db'.
Proof.
  intros H (Hwf & Href & Huse). pose proof Hwf as [Hpk Hlt].
  unfold voucher_invariant, references_issued, uses_bounded in *.
  rewrite Forall_forall in Huse.
  destruct H.
  - repeat split; try assumption. now apply Forall_forall.
  - (* one entry without voucher *)
    split; [exact Hwf|]. split.
    + cbn [insert_transaction transaction_table qrcode_seq].
      apply Forall_app. split; [exact Href|].
      constructor; [|constructor]. intros i Hi. congruence.
    + apply Forall_forall. intros q Hin.
      destruct (Huse q Hin) as (k & Hk & Hle). exists k. split; [exact Hk|].
      rewrite (uses_after_rows db (insert_transaction db row) [row] Hpk
                 eq_refl eq_refl q Hin).
      rewrite owner_uses_unrelated; [lia|].
      constructor; [congruence | constructor].
  - (* a transfer *)
    destruct H as (_ & _ & Hd & _ & _ & Hc).
    split; [exact Hwf|]. split.
    + rewrite insert_two_rows. cbn [qrcode_seq insert_transaction].
      apply Forall_app. split; [exact Href|].
      repeat constructor; intros i Hi; congruence.
    + apply Forall_forall. intros q Hin.
      destruct (Huse q Hin) as (k & Hk & Hle). exists k. split; [exact Hk|].
      rewrite (uses_after_rows db
                 (insert_transaction (insert_transaction db debit) credit)
                 [debit; credit] Hpk eq_refl (insert_two_rows _ _ _) q Hin).
      rewrite owner_uses_unrelated; [lia|].
      repeat constructor; congruence.
  - (* a redemption through [q] *)
    pose proof H2 as (_ & _ & Hd & _ & _ & Hc).
    split; [exact Hwf|]. split.
    + rewrite insert_two_rows. cbn [qrcode_seq insert_transaction].
      apply Forall_app. split; [exact Href|].
      rewrite Forall_forall in Hlt. specialize (Hlt q H).
      repeat constructor; intros i Hi; rewrite Hi in *; congruence.
    + apply Forall_forall. intros q' Hin.
      change (qrcode_table
                (insert_transaction (insert_transaction db debit) credit))
        with (qrcode_table db) in Hin.
      destruct (Huse q' Hin) as (k' & Hk' & Hle). exists k'.
      split; [exact Hk'|].
      destruct (Z.eq_dec (qrcode.id q') (qrcode.id q)) as [E | E].
      * assert (q' = q) by (eapply same_key_same_voucher; eauto). subst q'.
        rewrite (payment_is_one_use q a payer payee debit credit db H2);
          [| unfold QRCode.owner_subquery; now rewrite (find_by_pk _ q Hpk H)
           | exact H3 ].
        assert (k' = k) by congruence. lia.
      * rewrite (uses_after_rows db
                   (insert_transaction (insert_transaction db debit) credit)
                   [debit; credit] Hpk eq_refl (insert_two_rows _ _ _) q' Hin).
        rewrite owner_uses_unrelated; [lia|].
        repeat constructor; congruence.
  - (* a new voucher *)
    pose proof (qrcode_wf_insert db row Hwf H) as Hwf'.
    split; [exact Hwf'|]. split.
    + cbn [insert_qrcode transaction_table qrcode_seq].
      eapply Forall_impl; [|exact Href]. cbn beta.
      intros r Hr i Hi. specialize (Hr i Hi). lia.
    + cbn [insert_qrcode qrcode_table]. apply Forall_app. split.
      * apply Forall_forall. intros q Hin.
        destruct (Huse q Hin) as (k' & Hk' & Hle). exists k'.
        split; [exact Hk'|].
        rewrite (use_count_as_owner_uses q (insert_qrcode db row)
                   (proj1 Hwf'));
          [| cbn [insert_qrcode qrcode_table]; apply in_or_app; now left].
        cbn [insert_qrcode transaction_table].
        now rewrite <- (use_count_as_owner_uses q db Hpk Hin).
      * constructor; [|constructor]. exists k. split; [exact H0|].
        rewrite (use_count_as_owner_uses row (insert_qrcode db row)
                   (proj1 Hwf'));
          [| cbn [insert_qrcode qrcode_table]; apply in_or_app; right;
             now left].
        cbn [insert_qrcode transaction_table].
        rewrite owner_uses_unrelated; [lia|].
        eapply Forall_impl; [|exact Href]. cbn beta.
        intros r Hr E. specialize (Hr _ E). lia.
  - (* the pruning *)
    pose proof (qrcode_wf_pruned db Hwf) as Hwf'.
    split; [exact Hwf'|]. split; [exact Href|].
    apply Forall_forall. intros q Hin.
    assert (Hin0 : In q (qrcode_table db)).
    { unfold pruned in Hin. cbn [set_qrcode_table qrcode_table] in Hin.
      apply filter_In in Hin. tauto. }
    destruct (Huse q Hin0) as (k & Hk & Hle). exists k. split; [exact Hk|].
    rewrite (use_count_as_owner_uses q (pruned db) (proj1 Hwf') Hin).
    unfold pruned. cbn [set_qrcode_table transaction_table].
    now rewrite <- (use_count_as_owner_uses q db Hpk Hin0).
Qed.

Lemma serve_all_keeps_voucher_invariant rqs :
  forall db, voucher_invariant db -> voucher_invariant (serve_all rqs db).
Proof.
  induction rqs as [|rq rest IH]; intros db H; cbn [serve_all]; [exact H|].
  apply IH. destruct (serve_in_two_steps rq db) as (mid & H1 & H2).
  eapply step_keeps_voucher_invariant; [exact H2|].
  eapply step_keeps_voucher_invariant; eauto.
Qed.

(** X9.  No voucher is ever used more often than its limit allows: from a
    store that satisfies the invariant of the voucher store (the empty
    store does), after any sequence of requests, every voucher in the store
    has a [max_use_count] and a use count of at most that number (of zero,
    when the number is negative). *)
Theorem uses_never_exceed_the_limit rqs db q :
  voucher_invariant db ->
  In q (qrcode_table (serve_all rqs db)) ->
  exists k,
    qrcode.max_use_count q = Some k
    /\ QRCode.current_use_count q (serve_all rqs db) <= Z.max 0 k.
Proof.
  intros Hinv Hin.
  destruct (serve_all_keeps_voucher_invariant rqs db Hinv) as (_ & _ & Huse).
  unfold uses_bounded in Huse. rewrite Forall_forall in Huse.
  now apply Huse.
Qed.

Lemma voucher_invariant_db0 : voucher_invariant db0.
Proof.
  split; [exact qrcode_wf_db0|]. split; constructor.
Qed.

Lemma uses_never_exceed_the_limit_witness :
  exists k,
    qrcode.max_use_count send_voucher = Some k
    /\ QRCode.current_use_count send_voucher
         (serve_all
            [(TopUp 10 (PaymentRequest.Build 10000) alice, []);
             (IssueSend 100 "token-send" None alice, []);
             (Scan 101 "token-send" bob (Some 3000), []);
             (Scan 102 "token-send" carol (Some 3000), [])]
            db0)
       <= Z.max 0 k.
Proof.
  apply uses_never_exceed_the_limit.
  - exact voucher_invariant_db0.
  - left. reflexivity.
Defined.

(* ------------------------------------------------------------------ *)
(** ** Issuing and showing vouchers *)


(** X11.  The amount a caller passes when redeeming a request voucher is
    ignored: the answer and the store after the redemption are the same
    whatever amount, or none, comes with the request. *)
Theorem request_voucher_ignores_caller_amount
    now qr_id u db fs q (amt1 amt2 : option Z) :
  QRCode.get_by_qr_id qr_id db = Some q ->
  qrcode.qr_type q = REQUEST_PAYMENT ->
  run (scan_qrcode now qr_id u amt1) db fs
  = run (scan_qrcode now qr_id u amt2) db fs.
Proof.
  intros Hq Ht. unfold scan_qrcode. msimpl. rewrite Hq. msimpl.
  destruct (QRCode.is_expired now q); msimpl; [reflexivity|].
  destruct (qrcode.max_use_count q) as [k|]; msimpl; [|reflexivity].
  destruct (QRCode.current_use_count q db >=? k); msimpl; [reflexivity|].
  rewrite Ht. reflexivity.
Qed.

Lemma request_voucher_ignores_caller_amount_witness :
  run (scan_qrcode 30 "token-req" alice None) db_request []
  = run (scan_qrcode 30 "token-req" alice (Some 5)) db_request [].
Proof.
  apply (request_voucher_ignores_caller_amount
           30 "token-req" alice db_request [] request_voucher);
    reflexivity.
Defined.

(** X12.  The public view of a voucher fails in two cases only: the token is
    unknown, or the voucher is a send voucher past its expiry.  A request
    voucher is shown even when it is expired.  The view never writes. *)
Theorem view_fails_exactly_when now qr_id u db fs :
  match run (get_qrcode_by_uuid now qr_id u) db fs with
  | (Return resp, db') =>
      db' = db
      /\ exists q,
           QRCode.get_by_qr_id qr_id db = Some q
           /\ (qrcode.qr_type q = REQUEST_PAYMENT
               \/ QRCode.is_expired now q = false)
           /\ resp = QRCodeResponse.Build (qrcode.qr_id q)
                       (QRType_value (qrcode.qr_type q))
                       (qrcode.amount q) (qrcode.expire q)
  | (Raise e, db') =>
      db' = db
      /\ ((QRCode.get_by_qr_id qr_id db = None
           /\ e = TransactionNotFoundException "QR code not found")
          \/ (exists q,
                 QRCode.get_by_qr_id qr_id db = Some q
                 /\ qrcode.qr_type q = SEND_PAYMENT
                 /\ QRCode.is_expired now q = true
                 /\ e = TransactionNotFoundException
                          "QR code has expired or is invalid"))
  end.
Proof.
  unfold get_qrcode_by_uuid, QRCode.can_be_used. msimpl.
  destruct (QRCode.get_by_qr_id qr_id db) as [q|] eqn:Hq; msimpl.
  2:{ split; [reflexivity | left; auto]. }
  destruct (qrcode.qr_type q) eqn:Ht; cbn [QRType_eqb andb]; msimpl.
  - split; [reflexivity|]. exists q. rewrite Ht. auto.
  - destruct (QRCode.is_expired now q) eqn:Hx; cbn [negb]; msimpl.
    + split; [reflexivity | right]. exists q. auto.
    + split; [reflexivity|]. exists q. rewrite Ht. auto.
Qed.

Lemma token_found_after_issue (db : DB) (row : QRCode) :
  QRCode.get_by_qr_id (qrcode.qr_id row) db = None ->
  QRCode.get_by_qr_id (qrcode.qr_id row) (insert_qrcode db row) = Some row.
Proof.
  unfold QRCode.get_by_qr_id, insert_qrcode. cbn [qrcode_table].
  induction (qrcode_table db) as [|x rows IH]; cbn [find app].
  - intros _. now rewrite String.eqb_refl.
  - destruct (String.eqb (qrcode.qr_id x) (qrcode.qr_id row));
      [discriminate | exact IH].
Qed.

Lemma token_fresh_after_pruning (token : string) (db : DB) :
  QRCode.get_by_qr_id token db = None ->
  QRCode.get_by_qr_id token (pruned db) = None.
Proof.
  unfold QRCode.get_by_qr_id, pruned. cbn [set_qrcode_table qrcode_table].
  induction (qrcode_table db) as [|x rows IH]; cbn [find filter];
    [reflexivity|].
  destruct (String.eqb (qrcode.qr_id x) token) eqn:E; [discriminate|].
  intros H. destruct (negb (QRCode.clean_where db x)); cbn [find];
    [rewrite E|]; now apply IH.
Qed.

Lemma use_count_nonneg (q : QRCode) (db : DB) :
  0 <= QRCode.current_use_count q db.
Proof.
  unfold QRCode.current_use_count. rewrite py_or_zero. lia.
Qed.

Lemma fresh_token_not_taken (token : string) (db : DB) :
  QRCode.get_by_qr_id token db = None -> token_taken token db = false.
Proof.
  unfold QRCode.get_by_qr_id, token_taken.
  induction (qrcode_table db) as [|x rows IH]; cbn [find existsb];
    [reflexivity|].
  destruct (String.eqb (qrcode.qr_id x) token); [discriminate | exact IH].
Qed.

Lemma qrcode_request_issues st now uuid4 origin c u db fs :
  token_taken uuid4 db = false ->
  commit_accepted fs = true ->
  (forall x, PaymentCollectionRequest.expire c <> Some (aware x)) ->
  exists e0,
    snd (run (qrcode_request st now uuid4 origin c u) db fs)
    = insert_qrcode db
        (qrcode.Build uuid4 REQUEST_PAYMENT
           (Some (PaymentCollectionRequest.max_user_count c))
           (Some (PaymentCollectionRequest.amount c))
           now (Some e0) (user.id u) (qrcode_seq db)).
Proof.
  intros Ht Hfs Hna. unfold qrcode_request. msimpl.
  destruct (PaymentCollectionRequest.expire c) as [[x|x]|]; msimpl;
    [| now destruct (Hna x) |].
  all: destruct fs as [|[|] fs]; try discriminate; msimpl;
    cbn [qrcode.qr_id]; rewrite Ht; msimpl; eexists; reflexivity.
Qed.

(** X13.  A request voucher issued with an amount that is not positive, or
    for a number of uses that is not positive, is in the store (unless the
    issue failed on an aware expiry) and can never be redeemed: whoever
    scans its token, at whatever instant and with whatever amount, is
    refused, and nothing is written. *)
Theorem unredeemable_request_voucher st now uuid4 origin c u db fs :
  QRCode.get_by_qr_id uuid4 db = None ->
  commit_accepted fs = true ->
  PaymentCollectionRequest.amount c <= 0
  \/ PaymentCollectionRequest.max_user_count c <= 0 ->
  let db' := snd (run (qrcode_request st now uuid4 origin c u) db fs) in
  ((forall x, PaymentCollectionRequest.expire c <> Some (aware x)) ->
   exists row,
     QRCode.get_by_qr_id uuid4 db' = Some row
     /\ qrcode.amount row = Some (PaymentCollectionRequest.amount c)
     /\ qrcode.max_use_count row
        = Some (PaymentCollectionRequest.max_user_count c))
  /\ forall now' v amt fs',
       exists e, run (scan_qrcode now' uuid4 v amt) db' fs' = (Raise e, db').
Proof.
  intros Hfresh Hfs Hbad. cbv zeta.
  assert (Hcase : (exists x, PaymentCollectionRequest.expire c = Some (aware x))
                  \/ forall x, PaymentCollectionRequest.expire c
                               <> Some (aware x)).
  { destruct (PaymentCollectionRequest.expire c) as [[x|x]|];
      [right; discriminate | left; eauto | right; discriminate]. }
  destruct Hcase as [(x & Hx) | Hna].
  - (* the issue fails: the token stays unknown *)
    assert (E : snd (run (qrcode_request st now uuid4 origin c u) db fs) = db).
    { unfold qrcode_request. msimpl. rewrite Hx. reflexivity. }
    rewrite E. split; [intros H; now destruct (H x)|].
    intros now' v amt fs'. unfold scan_qrcode. msimpl. rewrite Hfresh.
    msimpl. eauto.
  - destruct (qrcode_request_issues st now uuid4 origin c u db fs
                (fresh_token_not_taken _ _ Hfresh) Hfs Hna) as (e0 & E).
    rewrite E.
    set (row := qrcode.Build uuid4 REQUEST_PAYMENT
                  (Some (PaymentCollectionRequest.max_user_count c))
                  (Some (PaymentCollectionRequest.amount c))
                  now (Some e0) (user.id u) (qrcode_seq db)).
    pose proof (token_found_after_issue db row Hfresh) as Hget.
    cbn [qrcode.qr_id row] in Hget.
    split; [intros _; exists row; auto|].
    intros now' v amt fs'.
    unfold scan_qrcode. msimpl. rewrite Hget. msimpl.
    destruct (QRCode.is_expired now' row); msimpl; [eauto|].
    cbn [qrcode.max_use_count row]. msimpl.
    destruct (QRCode.current_use_count row (insert_qrcode db row)
              >=? PaymentCollectionRequest.max_user_count c) eqn:Hc;
      msimpl; [eauto|].
    cbn [qrcode.qr_type qrcode.amount row]. msimpl.
    destruct (PaymentCollectionRequest.amount c <=? 0) eqn:Ha; msimpl;
      [eauto|].
    exfalso. bools.
    pose proof (use_count_nonneg row (insert_qrcode db row)). lia.
Qed.

Lemma unredeemable_request_voucher_witness :
  exists e,
    run (scan_qrcode 25 "token-zero" alice None)
        (snd (run (qrcode_request (mkSettings 168) 20 "token-zero" None
                     (PaymentCollectionRequest.Build 0 3 None) bob) db1 []))
        []
    = (Raise e,
       snd (run (qrcode_request (mkSettings 168) 20 "token-zero" None
                   (PaymentCollectionRequest.Build 0 3 None) bob) db1 [])).
Proof.
  apply (proj2 (unredeemable_request_voucher (mkSettings 168) 20 "token-zero"
                  None (PaymentCollectionRequest.Build 0 3 None) bob db1 []
                  eq_refl eq_refl (or_introl (Z.le_refl 0)))).
Defined.

Lemma step_keeps_vouchers db db' :
  has_null_qr_id db ->
  store_step db db' ->
  has_null_qr_id db'
  /\ exists added, qrcode_table db' = qrcode_table db ++ added.
Proof.
  intros Hn H. pose proof Hn as (r & Hin & Hr).
  assert (Hmore : forall l,
             exists r0, In r0 (transaction_table db ++ l)
                        /\ transaction.qr_id r0 = None).
  { intros l. exists r. split; [apply in_or_app; now left | exact Hr]. }
  destruct H.
  - split; [exact Hn|]. exists []. now rewrite app_nil_r.
  - split; [exact (Hmore [row])|]. exists []. cbn. now rewrite app_nil_r.
  - split.
    + unfold has_null_qr_id. rewrite insert_two_rows. apply Hmore.
    + exists []. cbn. now rewrite app_nil_r.
  - split.
    + unfold has_null_qr_id. rewrite insert_two_rows. apply Hmore.
    + exists []. cbn. now rewrite app_nil_r.
  - split; [exact Hn|]. exists [row]. reflexivity.
  - rewrite (pruned_with_null db Hn). split; [exact Hn|].
    exists []. now rewrite app_nil_r.
Qed.

Lemma serve_all_keeps_vouchers rqs :
  forall db,
    has_null_qr_id db ->
    exists added, qrcode_table (serve_all rqs db) = qrcode_table db ++ added.
Proof.
  induction rqs as [|rq rest IH]; intros db Hn; cbn [serve_all].
  - exists []. now rewrite app_nil_r.
  - destruct (serve_in_two_steps rq db) as (mid & H1 & H2).
    destruct (step_keeps_vouchers _ _ Hn H1) as (Hn1 & l1 & T1).
    destruct (step_keeps_vouchers _ _ Hn1 H2) as (Hn2 & l2 & T2).
    destruct (IH _ Hn2) as (l3 & T3).
    exists (l1 ++ l2 ++ l3). now rewrite T3, T2, T1, <- !app_assoc.
Qed.

Lemma token_still_found (token : string) (q : QRCode) (db db' : DB) added :
  QRCode.get_by_qr_id token db = Some q ->
  qrcode_table db' = qrcode_table db ++ added ->
  QRCode.get_by_qr_id token db' = Some q.
Proof.
  unfold QRCode.get_by_qr_id. intros H ->.
  induction (qrcode_table db) as [|x rows IH]; cbn [find app] in *;
    [discriminate|].
  destruct (String.eqb (qrcode.qr_id x) token); [exact H | now apply IH].
Qed.

(** X14.  In a store whose ledger has an entry without voucher reference
    (every top-up, withdrawal and transfer leaves one), a send voucher
    issued at [now] with a new token is shown by the public view, whatever
    requests are served in between, at every instant up to and including
    [now] plus one minute, as a [send_payment] voucher without amount, and
    is refused as expired at any later instant. *)
Theorem send_voucher_is_shown_for_a_minute
    now uuid4 origin u db fs resp rqs :
  has_null_qr_id db ->
  QRCode.get_by_qr_id uuid4 db = None ->
  fst (run (qrcode_send now uuid4 origin u) db fs) = Return resp ->
  let db' := serve_all rqs (snd (run (qrcode_send now uuid4 origin u) db fs)) in
  forall now' v fs',
    run (get_qrcode_by_uuid now' uuid4 v) db' fs'
    = if now' >? now + one_minute
      then (Raise (TransactionNotFoundException
                     "QR code has expired or is invalid"), db')
      else (Return (QRCodeResponse.Build uuid4 "send_payment" None
                      (Some (now + one_minute))), db').
Proof.
  intros Hn Hfresh Hret. cbv zeta.
  set (row := qrcode.Build uuid4 SEND_PAYMENT (Some 1) None now
                (Some (now + one_minute)) (user.id u) (qrcode_seq db)).
  assert (E : snd (run (qrcode_send now uuid4 origin u) db fs)
              = insert_qrcode (pruned db) row).
  { destruct (qrcode_send_outcome now uuid4 origin u db fs)
      as [(r & E) | [(e & E) | (e & E)]]; rewrite E in *;
      [reflexivity | discriminate | discriminate]. }
  rewrite E.
  pose proof (token_found_after_issue (pruned db) row
                (token_fresh_after_pruning uuid4 db Hfresh)) as Hget0.
  cbn [qrcode.qr_id row] in Hget0.
  assert (Hn' : has_null_qr_id (insert_qrcode (pruned db) row)).
  { rewrite (pruned_with_null db Hn). exact Hn. }
  destruct (serve_all_keeps_vouchers rqs _ Hn') as (added & Htab).
  pose proof (token_still_found _ _ _ _ _ Hget0 Htab) as Hget.
  intros now' v fs'.
  unfold get_qrcode_by_uuid, QRCode.can_be_used, QRCode.is_expired. msimpl.
  rewrite Hget. msimpl. cbn [qrcode.qr_type qrcode.expire row QRType_eqb andb].
  destruct (now' >? now + one_minute); reflexivity.
Qed.

Lemma send_voucher_is_shown_for_a_minute_witness :
  run (get_qrcode_by_uuid (100 + one_minute) "token-send" carol)
      (serve_all [(IssueSend 101 "token-bob2" None bob, []);
                  (Scan 102 "token-send" bob (Some 3000), [])] db_send) []
  = (Return (QRCodeResponse.Build "token-send" "send_payment" None
               (Some (100 + one_minute))),
     serve_all [(IssueSend 101 "token-bob2" None bob, []);
                (Scan 102 "token-send" bob (Some 3000), [])] db_send)
  /\ run (get_qrcode_by_uuid (101 + one_minute) "token-send" carol)
         (serve_all [(IssueSend 101 "token-bob2" None bob, []);
                     (Scan 102 "token-send" bob (Some 3000), [])] db_send) []
     = (Raise (TransactionNotFoundException
                 "QR code has expired or is invalid"),
        serve_all [(IssueSend 101 "token-bob2" None bob, []);
                   (Scan 102 "token-send" bob (Some 3000), [])] db_send).
Proof.
  assert (Hn : has_null_qr_id db1).
  { eexists. split; [left; reflexivity | reflexivity]. }
  split.
  - exact (send_voucher_is_shown_for_a_minute 100 "token-send" None alice db1 []
             _ [(IssueSend 101 "token-bob2" None bob, []);
                (Scan 102 "token-send" bob (Some 3000), [])]
             Hn eq_refl eq_refl (100 + one_minute) carol []).
  - exact (send_voucher_is_shown_for_a_minute 100 "token-send" None alice db1 []
             _ [(IssueSend 101 "token-bob2" None bob, []);
                (Scan 102 "token-send" bob (Some 3000), [])]
             Hn eq_refl eq_refl (101 + one_minute) carol []).
Defined.

(** X15.  Issue, redeem, and no second time.  After the owner has issued a
    send voucher with a new token, a registered owner with enough money and
    a redeemer other than the owner, within the minute and with an accepted
    commit: the redemption returns, the owner has the amount less, the
    redeemer has it more and is told so; and from then on every scan of the
    token is refused without a write. *)
Theorem send_voucher_pays_once
    now uuid4 origin owner db fs resp now' v a fs' o :
  voucher_invariant db ->
  QRCode.get_by_qr_id uuid4 db = None ->
  fst (run (qrcode_send now uuid4 origin owner) db fs) = Return resp ->
  session_get_user (user.id owner) db = Some o ->
  user.id v <> user.id owner ->
  now' <= now + one_minute ->
  0 < a <= User.total_balance owner db ->
  commit_accepted fs' = true ->
  let db' := snd (run (qrcode_send now uuid4 origin owner) db fs) in
  exists resp' db'',
    run (scan_qrcode now' uuid4 v (Some a)) db' fs' = (Return resp', db'')
    /\ User.total_balance owner db'' = User.total_balance owner db - a
    /\ User.total_balance v db'' = User.total_balance v db + a
    /\ PaymentResponse.new_balance resp'
       = format_money (User.total_balance v db + a)
    /\ forall now'' w amt fs'',
         exists e,
           run (scan_qrcode now'' uuid4 w amt) db'' fs'' = (Raise e, db'').
Proof.
  intros Hinv Hfresh Hret Ho Hv Hnow Ha Hfs. cbv zeta.
  set (row := qrcode.Build uuid4 SEND_PAYMENT (Some 1) None now
                (Some (now + one_minute)) (user.id owner) (qrcode_seq db)).
  assert (E : snd (run (qrcode_send now uuid4 origin owner) db fs)
              = insert_qrcode (pruned db) row).
  { destruct (qrcode_send_outcome now uuid4 origin owner db fs)
      as [(r & E) | [(e & E) | (e & E)]]; rewrite E in *;
      [reflexivity | discriminate | discriminate]. }
  rewrite E. set (db' := insert_qrcode (pruned db) row).
  assert (Hinv' : voucher_invariant db').
  { eapply step_keeps_voucher_invariant;
      [eapply (step_issue (pruned db) row 1); reflexivity|].
    eapply step_keeps_voucher_invariant; [apply step_prune | exact Hinv]. }
  destruct Hinv' as ([Hpk' _] & _ & _).
  destruct Hinv as (_ & Href & _).
  pose proof (token_found_after_issue (pruned db) row
                (token_fresh_after_pruning uuid4 db Hfresh)) as Hget.
  cbn [qrcode.qr_id row] in Hget. fold db' in Hget.
  assert (Hin : In row (qrcode_table db')).
  { apply find_some in Hget. tauto. }
  assert (Hcount : QRCode.current_use_count row db' = 0).
  { rewrite (use_count_as_owner_uses row db' Hpk' Hin).
    apply owner_uses_unrelated.
    eapply Forall_impl; [|exact Href]. cbn beta.
    intros r Hr Eq. specialize (Hr _ Eq). cbn in Hr. lia. }
  assert (Huser : QRCode.user row db' = Some o) by exact Ho.
  assert (Hido : user.id o = user.id owner).
  { apply find_some in Ho. destruct Ho as [_ Ho]. now bools. }
  assert (Hbal : forall x db1, User.total_balance o db1 = x <->
                               User.total_balance owner db1 = x).
  { intros x d. rewrite !total_balance_ledger_sum, Hido. tauto. }
  assert (Hred : redeemable now' uuid4 v (Some a) db' row a o v).
  { unfold redeemable. repeat split.
    - exact Hget.
    - unfold QRCode.is_expired. cbn [qrcode.expire row].
      rewrite Z.gtb_ltb. apply Z.ltb_ge. exact Hnow.
    - exists 1. split; [reflexivity | lia].
    - lia.
    - exists o. repeat split; [exact Huser | congruence].
    - apply Z.le_trans with (User.total_balance owner db); [lia|].
      apply Z.eq_le_incl. symmetry. now apply Hbal. }
  destruct (scan_qrcode_redeems _ _ _ _ _ _ _ _ _ _ Hred Hfs)
    as (resp' & db'' & Erun).
  exists resp', db''. split; [exact Erun|].
  destruct (scan_qrcode_return _ _ _ _ _ _ _ _ Erun)
    as (q' & a' & payer & payee & debit & credit & Hr' & _ & -> & Hrows
        & _ & _ & _ & _ & _ & Hnew).
  destruct Hr' as (Hq' & _ & _ & _ & (o' & Ho' & _ & Hty) & _).
  rewrite Hget in Hq'. injection Hq' as <-.
  cbn [qrcode.qr_type row] in Hty. destruct Hty as (Hamt & -> & ->).
  injection Hamt as <-. rewrite Huser in Ho'. injection Ho' as <-.
  assert (Hne : user.id v <> user.id o) by congruence.
  assert (Hpayer : User.total_balance owner
                     (insert_transaction (insert_transaction db' debit) credit)
                   = User.total_balance owner db - a).
  { apply Hbal. rewrite !total_balance_ledger_sum.
    rewrite (payment_debits_payer _ _ _ _ _ _ db' Hrows Hne).
    now rewrite Hido. }
  assert (Hpayee : User.total_balance v
                     (insert_transaction (insert_transaction db' debit) credit)
                   = User.total_balance v db + a).
  { rewrite !total_balance_ledger_sum.
    now rewrite (payment_credits_payee _ _ _ _ _ _ db' Hrows Hne). }
  split; [exact Hpayer|]. split; [exact Hpayee|].
  split; [now rewrite Hnew, Hpayee|].
  assert (Hone : QRCode.current_use_count row
                   (insert_transaction (insert_transaction db' debit) credit)
                 = 1).
  { rewrite (payment_is_one_use row a (user.id o) (user.id v) debit credit db'
               Hrows).
    - lia.
    - unfold QRCode.owner_subquery. now rewrite (find_by_pk _ row Hpk' Hin).
    - left. cbn [qrcode.user_id row]. split; congruence. }
  intros now'' w amt fs''.
  unfold scan_qrcode. msimpl.
  change (QRCode.get_by_qr_id uuid4
            (insert_transaction (insert_transaction db' debit) credit))
    with (QRCode.get_by_qr_id uuid4 db').
  rewrite Hget. msimpl.
  destruct (QRCode.is_expired now'' row); msimpl; [eauto|].
  cbn [qrcode.max_use_count row]. msimpl. rewrite Hone.
  change (1 >=? 1) with true. msimpl. eauto.
Qed.

Lemma send_voucher_pays_once_witness :
  exists resp' db'',
    run (scan_qrcode 101 "token-send" bob (Some 3000)) db_send []
    = (Return resp', db'')
    /\ User.total_balance alice db'' = User.total_balance alice db1 - 3000
    /\ User.total_balance bob db'' = User.total_balance bob db1 + 3000
    /\ PaymentResponse.new_balance resp'
       = format_money (User.total_balance bob db1 + 3000)
    /\ forall now'' w amt fs'',
         exists e,
           run (scan_qrcode now'' "token-send" w amt) db'' fs'' = (Raise e, db'').
Proof.
  apply (send_voucher_pays_once 100 "token-send" None alice db1 []
           (QRImageResponse.Build "token-send" "token-send" "token-send"
              "send_payment")
           101 bob 3000 [] alice).
  - split; [split; constructor|]. split; [|constructor].
    constructor; [|constructor]. intros i Hi. discriminate.
  - reflexivity.
  - reflexivity.
  - reflexivity.
  - discriminate.
  - vm_compute. discriminate.
  - split; [lia | vm_compute; discriminate].
  - reflexivity.
Defined.

(* ------------------------------------------------------------------ *)
(** ** The history of an account *)

Lemma insert_by_timestamp_perm (r : Transaction) (rows : list Transaction) :
  Permutation (insert_by_timestamp r rows) (r :: rows).
Proof.
  induction rows as [|x rest IH]; cbn [insert_by_timestamp].
  - apply Permutation_refl.
  - destruct (transaction.timestamp x <? transaction.timestamp r).
    + apply Permutation_refl.
    + apply perm_trans with (x :: r :: rest).
      * now apply perm_skip.
      * apply perm_swap.
Qed.

Lemma order_by_timestamp_desc_perm (rows : list Transaction) :
  Permutation (order_by_timestamp_desc rows) rows.
Proof.
  induction rows as [|r rest IH]; cbn [order_by_timestamp_desc].
  - apply perm_nil.
  - apply perm_trans with (r :: order_by_timestamp_desc rest).
    + apply insert_by_timestamp_perm.
    + now apply perm_skip.
Qed.

Lemma insert_by_timestamp_sorted (r : Transaction) (rows : list Transaction) :
  newest_first rows -> newest_first (insert_by_timestamp r rows).
Proof.
  induction rows as [|x rest IH]; cbn [insert_by_timestamp newest_first].
  - intros _. split; [constructor | exact I].
  - intros [Hx Hrest].
    destruct (transaction.timestamp x <? transaction.timestamp r) eqn:E.
    + apply Z.ltb_lt in E. cbn [newest_first]. split; [|now split].
      constructor; [lia|].
      eapply Forall_impl; [|exact Hx]. cbn beta. intros; lia.
    + apply Z.ltb_ge in E. cbn [newest_first]. split; [|now apply IH].
      apply (Permutation_Forall
               (Permutation_sym (insert_by_timestamp_perm r rest))).
      now constructor.
Qed.

Lemma order_by_timestamp_desc_sorted (rows : list Transaction) :
  newest_first (order_by_timestamp_desc rows).
Proof.
  induction rows as [|r rest IH]; cbn [order_by_timestamp_desc];
    [exact I | now apply insert_by_timestamp_sorted].
Qed.

(** X16.  The history never fails and never writes.  It lists exactly the
    entries of the caller that are not older than 30 days times the number
    of months, each once, from the newest to the oldest, and counts them;
    the balance it reports is the balance over the whole ledger, not over
    the window. *)
Theorem history_lists_the_window now u months db fs :
  exists rows,
    run (get_history now u months) db fs
    = (Return (BalanceHistoryResponse.Build
                 (user.username u)
                 (format_money (ledger_sum (user.id u) (transaction_table db)))
                 months
                 (map history_item rows)
                 (Z.of_nat (List.length rows))), db)
    /\ Permutation rows
         (filter (fun r => (transaction.user_id r =? user.id u)
                           && (now - 30 * months * 86400 * 1000000
                               <=? transaction.timestamp r))
                 (transaction_table db))
    /\ newest_first rows.
Proof.
  exists (User_get_transactions_by_date (user.id u)
            (now - history_window months) db).
  split; [|split].
  - unfold get_history. msimpl. now rewrite total_balance_ledger_sum.
  - unfold User_get_transactions_by_date.
    eapply perm_trans; [apply order_by_timestamp_desc_perm|].
    erewrite filter_ext; [apply Permutation_refl|].
    intros r. unfold history_where, history_window.
    now rewrite Z.geb_leb.
  - apply order_by_timestamp_desc_sorted.
Qed.

(** X17.  The count query agrees with the list query: it returns the number
    of entries the list query returns. *)
Theorem count_agrees_with_list user_id from_date db :
  User_count_transactions_by_date user_id from_date db
  = Z.of_nat (List.length (User_get_transactions_by_date user_id from_date db)).
Proof.
  unfold User_count_transactions_by_date, User_get_transactions_by_date.
  rewrite py_or_zero. f_equal. symmetry.
  apply Permutation_length, order_by_timestamp_desc_perm.
Qed.

(** X18.  A longer history contains the shorter one: every item listed for
    [months] months is listed for any larger number of months. *)
Theorem longer_history_contains_shorter now u months months' db fs fs' :
  months <= months' ->
  match run (get_history now u months) db fs,
        run (get_history now u months') db fs' with
  | (Return resp, _), (Return resp', _) =>
      incl (BalanceHistoryResponse.balances resp)
           (BalanceHistoryResponse.balances resp')
  | _, _ => False
  end.
Proof.
  intros Hm. unfold get_history. msimpl.
  cbn [BalanceHistoryResponse.balances].
  apply incl_map. intros r Hr.
  unfold User_get_transactions_by_date in *.
  apply (Permutation_in _ (order_by_timestamp_desc_perm _)) in Hr.
  apply (Permutation_in _ (Permutation_sym (order_by_timestamp_desc_perm _))).
  apply filter_In in Hr. apply filter_In.
  destruct Hr as [Hin Hw]. split; [exact Hin|].
  unfold history_where, history_window in *.
  apply andb_true_iff in Hw. destruct Hw as [H1 H2].
  apply andb_true_iff. split; [exact H1|].
  rewrite Z.geb_leb in *. apply Z.leb_le in H2. apply Z.leb_le. lia.
Qed.

Lemma longer_history_contains_shorter_witness :
  match run (get_history (forty_days + 5 * 86400 * 1000000) alice 1)
            db_two_topups [],
        run (get_history (forty_days + 5 * 86400 * 1000000) alice 24)
            db_two_topups [] with
  | (Return resp, _), (Return resp', _) =>
      incl (BalanceHistoryResponse.balances resp)
           (BalanceHistoryResponse.balances resp')
      /\ BalanceHistoryResponse.total_transactions resp = 1
      /\ BalanceHistoryResponse.total_transactions resp' = 2
  | _, _ => False
  end.
Proof.
  pose proof (longer_history_contains_shorter
                (forty_days + 5 * 86400 * 1000000) alice 1 24
                db_two_topups [] []) as H.
  destruct (run (get_history (forty_days + 5 * 86400 * 1000000) alice 1)
                db_two_topups []) as [[resp | e] d] eqn:E1;
    [|vm_compute in E1; discriminate].
  destruct (run (get_history (forty_days + 5 * 86400 * 1000000) alice 24)
                db_two_topups []) as [[resp' | e'] d'] eqn:E2;
    [|vm_compute in E2; discriminate].
  split; [apply H; lia|].
  vm_compute in E1. vm_compute in E2.
  injection E1 as <- _. injection E2 as <- _. split; reflexivity.
Defined.

(* ------------------------------------------------------------------ *)
(** ** The details of one entry *)

Lemma find_transaction_by_pk (rows : list Transaction) (r : Transaction) :
  NoDup (map transaction.id rows) ->
  In r rows ->
  find (fun x => transaction.id x =? transaction.id r) rows = Some r.
Proof.
  induction rows as [|x rows IH]; intros Hnd Hin; [contradiction|].
  cbn [map] in Hnd. inversion Hnd as [|? ? Hx Hrows]; subst.
  cbn [find]. destruct Hin as [-> | Hin].
  - now rewrite Z.eqb_refl.
  - destruct (transaction.id x =? transaction.id r) eqn:E; [|now apply IH].
    bools. exfalso. apply Hx. rewrite E. now apply in_map.
Qed.

(** X19.  Nobody reads another account's entry.  Whatever the route
    returns describes an entry of the ledger that carries the requested key
    and belongs to the caller; and with distinct keys, asking for an entry
    of the ledger gives its details to its owner and "Access denied" to
    everybody else, while a key that no entry carries gives "Transaction
    not found". *)
Theorem details_only_for_the_owner transaction_id u db :
  (forall d,
      get_transaction_details transaction_id u db = DetailsReturn d ->
      exists r,
        In r (transaction_table db)
        /\ transaction.id r = transaction_id
        /\ transaction.user_id r = user.id u
        /\ TransactionDetails.id d = transaction_id
        /\ TransactionDetails.amount d = format_money (transaction.amount r)
        /\ TransactionDetails.description d = transaction.description r)
  /\ (forall r,
         NoDup (map transaction.id (transaction_table db)) ->
         In r (transaction_table db) ->
         transaction.id r = transaction_id ->
         if transaction.user_id r =? user.id u
         then exists d, get_transaction_details transaction_id u db
                        = DetailsReturn d
         else get_transaction_details transaction_id u db
              = DetailsUnauthorized "Access denied to this transaction")
  /\ ((forall r, In r (transaction_table db) ->
                 transaction.id r <> transaction_id) ->
      get_transaction_details transaction_id u db
      = DetailsRaise (TransactionNotFoundException "Transaction not found")).
Proof.
  unfold get_transaction_details, session_get_transaction.
  split; [|split].
  - intros d.
    destruct (find (fun r => transaction.id r =? transaction_id)
                   (transaction_table db)) as [tr|] eqn:F; [|discriminate].
    apply find_some in F. destruct F as [Hin Hid]. bools.
    destruct (transaction.user_id tr =? user.id u) eqn:Hu; cbn [negb];
      [|discriminate].
    bools. intros H. injection H as <-. exists tr. cbn. auto 10.
  - intros r Hnd Hin <-.
    rewrite (find_transaction_by_pk _ r Hnd Hin).
    destruct (transaction.user_id r =? user.id u); cbn [negb]; eauto.
  - intros Hnone.
    destruct (find (fun r => transaction.id r =? transaction_id)
                   (transaction_table db)) as [tr|] eqn:F; [|reflexivity].
    apply find_some in F. destruct F as [Hin Hid]. bools.
    exfalso. now apply (Hnone tr).
Qed.

Lemma details_only_for_the_owner_witness :
  (exists d, get_transaction_details 2 alice db_send_used = DetailsReturn d)
  /\ get_transaction_details 2 bob db_send_used
     = DetailsUnauthorized "Access denied to this transaction"
  /\ get_transaction_details 9 bob db_send_used
     = DetailsRaise (TransactionNotFoundException "Transaction not found").
Proof.
  assert (Hnd : NoDup (map transaction.id (transaction_table db_send_used))).
  { repeat constructor; simpl; intuition discriminate. }
  assert (Hin : In (nth 1 (transaction_table db_send_used)
                        (transaction.Build 0 TOPUP None 0 0 None None 0))
                   (transaction_table db_send_used)).
  { right. left. reflexivity. }
  split; [|split].
  - exact (proj1 (proj2 (details_only_for_the_owner 2 alice db_send_used))
             _ Hnd Hin eq_refl).
  - exact (proj1 (proj2 (details_only_for_the_owner 2 bob db_send_used))
             _ Hnd Hin eq_refl).
  - apply (proj2 (proj2 (details_only_for_the_owner 9 bob db_send_used))).
    intros r [<- | [<- | [<- | []]]]; discriminate.
Defined.

(* ------------------------------------------------------------------ *)
(** ** Two commits in one request *)



(* ------------------------------------------------------------------ *)
(** ** From a transfer to the details of its entry *)

Lemma find_after_old_rows (k : Z) (rows added : list Transaction) :
  Forall (fun r => transaction.id r < k) rows ->
  find (fun x => transaction.id x =? k) (rows ++ added)
  = find (fun x => transaction.id x =? k) added.
Proof.
  intros H. induction H as [|r rows Hr _ IH]; cbn [app find]; [reflexivity|].
  destruct (transaction.id r =? k) eqn:E; [bools; lia | exact IH].
Qed.

(** X21.  The key a transfer returns is the key of the sender's entry: in a
    store with well-formed entry keys, the sender reads with it the details
    of a [transfer_sent] entry of minus the amount, and the recipient, who
    asks with the same key, is denied. *)
Theorem transfer_key_opens_the_debit now p u db fs resp db' :
  transaction_wf db ->
  run (transfer now p u) db fs = (Return resp, db') ->
  exists key d recipient,
    PaymentResponse.transaction_id resp = Some key
    /\ User.get_by_username (TransferRequest.recipient_username p) db
       = Some recipient
    /\ get_transaction_details key u db' = DetailsReturn d
    /\ TransactionDetails.id d = key
    /\ TransactionDetails.amount d = format_money (- TransferRequest.amount p)
    /\ TransactionDetails.transaction_type d = "transfer_sent"
    /\ get_transaction_details key recipient db'
       = DetailsUnauthorized "Access denied to this transaction".
Proof.
  intros [_ Hlt]. unfold transfer. msimpl.
  destruct (TransferRequest.amount p <=? 0); msimpl; [discriminate|].
  destruct (User.get_by_username _ db) as [r|] eqn:Hr; msimpl; [|discriminate].
  destruct (user.id r =? user.id u) eqn:Hs; msimpl; [discriminate|].
  destruct (TransferRequest.amount p >? User.total_balance u db); msimpl;
    [discriminate|].
  assert (Hs' : (user.id u =? user.id r) = false).
  { rewrite Z.eqb_sym. exact Hs. }
  destruct fs as [|[|] fs]; msimpl; [|discriminate|];
    intros H; injection H as <- <-;
    exists (transaction_seq db); eexists; exists r;
    (split; [reflexivity|]); (split; [reflexivity|]);
    unfold get_transaction_details, session_get_transaction;
    rewrite insert_two_rows, (find_after_old_rows _ _ _ Hlt);
    cbn [find transaction.id]; rewrite ?Z.eqb_refl;
    cbn [transaction.user_id]; rewrite ?Z.eqb_refl, Hs'; cbn [negb];
    repeat split.
Qed.

Lemma transfer_key_opens_the_debit_witness :
  exists key d recipient,
    Some 2 = Some key
    /\ User.get_by_username "bob" db1 = Some recipient
    /\ get_transaction_details key alice
         (after (transfer 11 (TransferRequest.Build 5000 "bob" EmptyString)
                   alice) db1)
       = DetailsReturn d
    /\ TransactionDetails.id d = key
    /\ TransactionDetails.amount d = format_money (- 5000)
    /\ TransactionDetails.transaction_type d = "transfer_sent"
    /\ get_transaction_details key recipient
         (after (transfer 11 (TransferRequest.Build 5000 "bob" EmptyString)
                   alice) db1)
       = DetailsUnauthorized "Access denied to this transaction".
Proof.
  apply (transfer_key_opens_the_debit 11
           (TransferRequest.Build 5000 "bob" EmptyString) alice db1 []
           (PaymentResponse.Build "Transfer to bob processed successfully"
              "50.00" "50.00" (Some 2) 11)).
  - split.
    + repeat constructor. simpl. tauto.
    + repeat constructor.
  - reflexivity.
Defined.
